(** * speedtest-go: the adaptive measurement engine of [speedtest/request.go]

    A shallow embedding of the download, upload and latency tests of
    package [speedtest], and the properties of its specification.

    - Go's [int], [int64] and [time.Duration] are [Z] with the 64-bit
      wrap-around written out where the source computes with them.
    - Go's [float64] is Rocq's primitive binary64 [float]; every arithmetic
      step of the source is one rounded operation here, in the same order.
    - Go strings are [string]; the URL builders are translated literally.
    - The network and the clock are an explicit record of observations
      (what each [time.Now()] returned, what each transfer did): a test
      call is a function of the server descriptor and of these
      observations, and returns the updated descriptor and the [error]. *)

From Stdlib Require Import ZArith List String Ascii Bool Lia.
From Stdlib Require Import Floats DecimalString Permutation.
Import ListNotations.

#[local] Set Warnings "-inexact-float".
#[local] Open Scope Z_scope.

(* ================================================================== *)
(** ** Machine integers *)

Definition minInt64 : Z := - 2 ^ 63.
Definition maxInt64 : Z := 2 ^ 63 - 1.

(** Two's-complement wrap-around of a 64-bit signed operation. *)
Definition wrap64 (z : Z) : Z := (z + 2 ^ 63) mod 2 ^ 64 - 2 ^ 63.

(** [int64(n)] for an unsigned 64-bit [n]: the same bits, read as signed. *)
Definition int64_of_uint64 (n : Z) : Z := wrap64 n.

(* ================================================================== *)
(** ** float64 *)

(** [float64(z)] for an integer [z]: the nearest binary64 value, ties to
    even. *)
Definition float64 (z : Z) : float :=
  SF2Prim (binary_normalize prec emax z 0 false).

(** [int(f)] for a float [f]: truncation toward zero.  Go leaves the result
    implementation-dependent when [f] is not representable; the model takes
    what amd64 produces there, the smallest [int64]. *)
Definition int_of_float64 (f : float) : Z :=
  match Prim2SF f with
  | S754_zero _ => 0
  | S754_finite sg m e =>
      let mag := if 0 <=? e then Z.pos m * 2 ^ e else Z.pos m / 2 ^ (- e) in
      let v := if sg then - mag else mag in
      if (minInt64 <=? v) && (v <=? maxInt64) then v else minInt64
  | _ => minInt64
  end.

(** A binary64 value that is not below zero: a zero, a positive finite
    value, the positive infinity, or NaN (which compares below nothing). *)
Definition not_negative (f : spec_float) : Prop :=
  match f with
  | S754_zero _ => True
  | S754_nan => True
  | S754_infinity s => s = false
  | S754_finite s _ _ => s = false
  end.

(* ================================================================== *)
(** ** Package [time], as far as the engine uses it *)

Module time.

(** [time.Duration]: a signed 64-bit count of nanoseconds. *)
Definition Duration : Set := Z.

Definition Nanosecond : Duration := 1.
Definition Millisecond : Duration := 1000000.
Definition Second : Duration := 1000000000.

Definition minDuration : Duration := minInt64.
Definition maxDuration : Duration := maxInt64.

(** [time.Time]: an instant, as nanoseconds on the monotonic clock. *)
Definition Time : Set := Z.

(** [t.Add(d)]. *)
Definition Add (t : Time) (d : Duration) : Time := t + d.

(** [t.Sub(u)]: the difference, saturated to the range of a Duration. *)
Definition Sub (t u : Time) : Duration :=
  let d := t - u in
  if maxDuration <? d then maxDuration
  else if d <? minDuration then minDuration
  else d.

(** [t.After(u)]. *)
Definition After (t u : Time) : bool := u <? t.

(** [d.Nanoseconds()]. *)
Definition Nanoseconds (d : Duration) : Z := d.

(** [d.Seconds()]:
    [sec := d / Second; nsec := d % Second;
     return float64(sec) + float64(nsec)/1e9]
    with Go's truncating integer division. *)
Definition Seconds (d : Duration) : float :=
  let sec := Z.quot d Second in
  let nsec := Z.rem d Second in
  (float64 sec + float64 nsec / 1e9)%float.

End time.

(* ================================================================== *)
(** ** The server descriptor *)

(** Modelled from the spec: the type [ServerType] and its constants
    [SpeedtestServer] and [LibrespeedServer] are declared outside
    [request.go]; the spec gives the closed set of two protocol kinds
    (Classic, i.e. speedtest.net, and Lightweight, i.e. librespeed). *)
Inductive ServerType : Set :=
| SpeedtestServer
| LibrespeedServer.

Definition ServerType_eqb (a b : ServerType) : bool :=
  match a, b with
  | SpeedtestServer, SpeedtestServer => true
  | LibrespeedServer, LibrespeedServer => true
  | _, _ => false
  end.

(** Modelled from the spec: the struct [Server] is declared outside
    [request.go]; these are the fields the engine reads and writes.  The
    transport [Doer] and the progress sink [Prog] are external
    collaborators: what they do is part of the observations below. *)
Record Server : Set := mkServer {
  URL : string;
  Type_ : ServerType;
  Latency : time.Duration;
  DLSpeed : float;
  ULSpeed : float
}.

Definition set_Latency (s : Server) (l : time.Duration) : Server :=
  mkServer (URL s) (Type_ s) l (DLSpeed s) (ULSpeed s).

Definition set_DLSpeed (s : Server) (v : float) : Server :=
  mkServer (URL s) (Type_ s) (Latency s) v (ULSpeed s).

Definition set_ULSpeed (s : Server) (v : float) : Server :=
  mkServer (URL s) (Type_ s) (Latency s) (DLSpeed s) v.

(** Go's [error] values; [None] is [nil]. *)
Definition error : Set := string.

(* ================================================================== *)
(** ** Constants of [request.go] *)

(** speedtest.net jpg suffixes *)
Definition dlSuffixes : list Z :=
  [350; 500; 750; 1000; 1500; 2000; 2500; 3000; 3500; 4000].

(** kB *)
Definition ulSuffixes : list Z :=
  [100; 300; 500; 800; 1000; 1500; 2500; 3000; 3500; 4000].

(** Indexing a Go array; every elem the engine uses is in range, the
    default is never reached. *)
Definition elem (a : list Z) (i : nat) : Z := nth i a 0.

(** overhead compensation factor - 4% *)
Definition compensationFactor : float := 1.04%float.

(* ================================================================== *)
(** ** Strings: [strings.Split], [strings.Repeat], [strconv.Itoa] *)

#[local] Open Scope string_scope.

(** [strings.Split(s, sep)] for a non-empty [sep]: [skip] counts the
    characters of a separator still to be passed over, [acc] is the piece
    read so far. *)
Fixpoint Split_aux (sep s : string) (skip : nat) (acc : string) : list string :=
  match s with
  | EmptyString => [acc]
  | String c s' =>
      match skip with
      | S k => Split_aux sep s' k acc
      | O =>
          if prefix sep s
          then acc :: Split_aux sep s' (String.length sep - 1) EmptyString
          else Split_aux sep s' O (acc ++ String c EmptyString)
      end
  end.

Definition Split (s sep : string) : list string := Split_aux sep s O EmptyString.

(** No occurrence of [sep] in [base ++ tail] starts inside [base]. *)
Fixpoint first_match_after (sep base tail : string) : bool :=
  match base with
  | EmptyString => true
  | String c q => negb (prefix sep (base ++ tail)) && first_match_after sep q tail
  end.

(** [strconv.Itoa]. *)
Definition Itoa (i : Z) : string := NilZero.string_of_int (Z.to_int i).

(** The string [s] written [n] times. *)
Fixpoint repeat_string (s : string) (n : nat) : string :=
  match n with
  | O => EmptyString
  | S n' => s ++ repeat_string s n'
  end.

(** [strings.Repeat(s, count)]: panics ([None]) on a negative count and
    when the length of the result overflows an [int]. *)
Definition Repeat (s : string) (count : Z) : option string :=
  if (count <? 0)%Z then None
  else if (maxInt64 <? Z.of_nat (String.length s) * count)%Z then None
  else Some (repeat_string s (Z.to_nat count)).

(* ================================================================== *)
(** ** URL construction *)

Definition getDownloadURL (serverUrl : string) (serverType : ServerType) (suffix : Z) : string :=
  if ServerType_eqb serverType SpeedtestServer then
    (* for speedtest.net server url is an upload URL *)
    let baseUrl := hd EmptyString (Split serverUrl "/upload.php") in
    baseUrl ++ "/random" ++ Itoa suffix ++ "x" ++ Itoa suffix ++ ".jpg"
  else
    serverUrl ++ "/garbage?cors=true&ckSize=" ++ Itoa suffix.

Definition getUploadURL (serverUrl : string) (serverType : ServerType) : string :=
  if ServerType_eqb serverType SpeedtestServer then
    serverUrl
  else
    serverUrl ++ "/empty?cors=true&ckSize=10".

Definition getPingURL (serverUrl : string) (serverType : ServerType) : string :=
  if ServerType_eqb serverType SpeedtestServer then
    let baseUrl := hd EmptyString (Split serverUrl "/upload.php") in
    baseUrl ++ "/latency.txt"
  else
    serverUrl ++ "/empty?cors=true&ckSize=1".

Definition suffixToMB (serverType : ServerType) (suffix : Z) : float :=
  if ServerType_eqb serverType LibrespeedServer then
    float64 suffix
  else
    (* matching jpg resources found at http://speedtest.tds.net/speedtest/ *)
    (float64 suffix * float64 suffix * 2 / 1000 / 1000)%float.

(* ================================================================== *)
(** ** The transport and the transfer tasks *)

(** What reading a response body to its end observes: the length of each
    successive read, and the error that ended it ([None]: end of file). *)
Record Response : Set := mkResponse {
  reads : list Z;
  readErr : option error
}.

(** What one [doer.Do(req)] observes: the lengths of the pieces the
    transport read from the request's [Body] before it returned, and its
    result.  (A transport that replays a request reads the copy [GetBody]
    returns, which is not the [Body]: such reads are not in this list.) *)
Record Exchange : Set := mkExchange {
  sent : list Z;
  answer : error + Response
}.

(** The HTTP client: [NewRequest method url] is the error of
    [http.NewRequestWithContext] ([None] for a well-formed request),
    [Do method url body k] what the call of [Do] numbered [k] observes. *)
Record Client : Set := mkClient {
  NewRequest : string -> string -> option error;
  Do : string -> string -> string -> nat -> Exchange
}.

(** What one transfer task did: the byte counts it passed to
    [prog.Update], in order, and the error it returned. *)
Record Transfer : Set := mkTransfer {
  reported : list Z;
  result : option error
}.

(** The writer installed by [io.TeeReader]: a piece of [n] bytes is
    reported when [n != 0]. *)
Definition tee (prog : bool) (pieces : list Z) : list Z :=
  if prog then filter (fun n => negb (n =? 0)%Z) pieces else [].

(** [url.QueryEscape] on one character: letters, digits and [-_.~] are
    kept, a space becomes [+], every other byte becomes [%XX]. *)
Definition hexDigit (n : nat) : ascii :=
  nth n (list_ascii_of_string "0123456789ABCDEF") "0"%char.

Definition isUnreserved (c : ascii) : bool :=
  let n := nat_of_ascii c in
  ((48 <=? n) && (n <=? 57) || (65 <=? n) && (n <=? 90) || (97 <=? n) && (n <=? 122)
   || (n =? 45) || (n =? 95) || (n =? 46) || (n =? 126))%nat.

Definition escapeChar (c : ascii) : string :=
  if isUnreserved c then String c EmptyString
  else if (nat_of_ascii c =? 32)%nat then "+"
  else String "%"%char
         (String (hexDigit (nat_of_ascii c / 16))
            (String (hexDigit (nat_of_ascii c mod 16)) EmptyString)).

Fixpoint QueryEscape (s : string) : string :=
  match s with
  | EmptyString => EmptyString
  | String c s' => escapeChar c ++ QueryEscape s'
  end.

(** A string of decimal digits. *)
Fixpoint all_digits (s : string) : bool :=
  match s with
  | EmptyString => true
  | String c s' =>
      (48 <=? nat_of_ascii c)%nat && (nat_of_ascii c <=? 57)%nat && all_digits s'
  end.

(** [v := url.Values{}; v.Add(key, value); v.Encode()]. *)
Definition Encode1 (key value : string) : string :=
  QueryEscape key ++ "=" ++ QueryEscape value.

(** The form value of an upload:
    [strings.Repeat("0123456789", sizeKB*100-51)]. *)
Definition ulContent (sizeKB : Z) : option string :=
  Repeat "0123456789" (wrap64 (wrap64 (sizeKB * 100) - 51)).

Definition dlWarmUp (doer : Client) (serverType : ServerType) (dlURL : string)
  (suffix : Z) (k : nat) : option error :=
  let xdlURL := getDownloadURL dlURL serverType suffix in
  match NewRequest doer "GET" xdlURL with
  | Some err => Some err
  | None =>
      match answer (Do doer "GET" xdlURL "" k) with
      | inl err => Some err
      | inr resp => readErr resp
      end
  end.

(** [None] when [strings.Repeat] panics. *)
Definition ulWarmUp (doer : Client) (serverType : ServerType) (ulURL : string)
  (sizeKB : Z) (k : nat) : option (option error) :=
  let xulURL := getUploadURL ulURL serverType in
  match ulContent sizeKB with
  | None => None
  | Some content =>
      Some
        match NewRequest doer "POST" xulURL with
        | Some err => Some err
        | None =>
            match answer (Do doer "POST" xulURL (Encode1 "content" content) k) with
            | inl err => Some err
            | inr resp => readErr resp
            end
        end
  end.

Definition downloadRequest (doer : Client) (serverType : ServerType) (prog : bool)
  (dlURL : string) (suffix : Z) (k : nat) : Transfer :=
  let xdlURL := getDownloadURL dlURL serverType suffix in
  match NewRequest doer "GET" xdlURL with
  | Some err => mkTransfer [] (Some err)
  | None =>
      match answer (Do doer "GET" xdlURL "" k) with
      | inl err => mkTransfer [] (Some err)
      | inr resp => mkTransfer (tee prog (reads resp)) (readErr resp)
      end
  end.

(** [None] when [strings.Repeat] panics. *)
Definition uploadRequest (doer : Client) (serverType : ServerType) (prog : bool)
  (ulURL : string) (sizeKB : Z) (k : nat) : option Transfer :=
  let xulURL := getUploadURL ulURL serverType in
  match ulContent sizeKB with
  | None => None
  | Some content =>
      Some
        match NewRequest doer "POST" xulURL with
        | Some err => mkTransfer [] (Some err)
        | None =>
            let x := Do doer "POST" xulURL (Encode1 "content" content) k in
            match answer x with
            | inl err => mkTransfer (tee prog (sent x)) (Some err)
            | inr resp => mkTransfer (tee prog (sent x)) (readErr resp)
            end
        end
  end.

(* ================================================================== *)
(** ** Calls, clocks and the error group *)

(** The result of a call that may not return: [None] when it panics, or
    when the observations end while it is still running. *)
Definition Call (A : Type) : Type := option A.

Definition ret {A : Type} (a : A) : Call A := Some a.

Definition bind {A B : Type} (m : Call A) (f : A -> Call B) : Call B :=
  match m with
  | Some a => f a
  | None => None
  end.

Notation "x <- m ;; k" := (bind m (fun x => k))
  (at level 61, m at next level, right associativity).

(** Every call of a list returns. *)
Fixpoint collect {A : Type} (calls : list (Call A)) : Call (list A) :=
  match calls with
  | [] => ret []
  | c :: calls' => a <- c ;; rest <- collect calls' ;; ret (a :: rest)
  end.

(** [errgroup.Group.Wait]: the first non-nil error to occur.  The tasks of
    a group are listed in the order they finish. *)
Fixpoint Wait (results : list (option error)) : option error :=
  match results with
  | [] => None
  | Some err :: _ => Some err
  | None :: results' => Wait results'
  end.

(** A warm-up: [streams] tasks started with [eg.Go], then [eg.Wait()]
    (lines 63-71 and 175-183). *)
Definition warmUp (task : nat -> Call (option error)) (streams : nat) : Call (option error) :=
  results <- collect (map task (seq 0 streams)) ;;
  ret (Wait results).

(** The injected transfer functions.  The context and the client of the Go
    signatures are in the observations; the last argument numbers the
    calls. *)
Definition downloadWarmUpFunc : Type := ServerType -> string -> Z -> nat -> Call (option error).
Definition downloadFunc : Type := ServerType -> string -> Z -> nat -> Call Transfer.
Definition uploadWarmUpFunc : Type := ServerType -> string -> Z -> nat -> Call (option error).
Definition uploadFunc : Type := ServerType -> string -> Z -> nat -> Call Transfer.

(** One pass through the main loop, after a token was acquired: what
    [time.Now()] returned and whether [timedCtx.Err() != nil]. *)
Record Admission : Set := mkAdmission {
  now : time.Time;
  ctxErr : bool
}.

(** What one download or upload test observes of the clock: [time.Now()]
    before and after the warm-up, before the main loop, at each pass through
    it, and after the last join. *)
Record Observed : Set := mkObserved {
  wuStart : time.Time;
  wuEnd : time.Time;
  mainStart : time.Time;
  passes : list Admission;
  mainEnd : time.Time
}.

(* ================================================================== *)
(** ** The measurement engine *)

(** The stream budget chosen after the warm-up. *)
Record Budget : Set := mkBudget {
  streams : Z;
  weight : nat;
  skip : bool
}.

(** Decide streams by warm up speed (download, lines 85-104).  In the
    last case the source leaves [streams] and [weight] at the values they
    have, 10 and 0. *)
Definition dlBudget (savingMode : bool) (wuSpeed : float) : Budget :=
  if savingMode then mkBudget 6 3 false
  else if (50.0 <? wuSpeed)%float then mkBudget 32 6 false
  else if (10.0 <? wuSpeed)%float then mkBudget 16 4 false
  else if (4.0 <? wuSpeed)%float then mkBudget 8 4 false
  else if (2.5 <? wuSpeed)%float then mkBudget 4 4 false
  else mkBudget 10 0 true.

(** Decide streams by warm up speed (upload, lines 190-209).  In the last
    case the source leaves [streams] and [weight] at 2 and 0. *)
Definition ulBudget (savingMode : bool) (wuSpeed : float) : Budget :=
  if savingMode then mkBudget 1 7 false
  else if (50.0 <? wuSpeed)%float then mkBudget 40 9 false
  else if (10.0 <? wuSpeed)%float then mkBudget 16 9 false
  else if (4.0 <? wuSpeed)%float then mkBudget 8 9 false
  else if (2.5 <? wuSpeed)%float then mkBudget 4 5 false
  else mkBudget 2 0 true.

(** The suffix of the download warm-up: one that results in a 1MB file. *)
Definition dlWarmUpSuffix (t : ServerType) : Z :=
  if ServerType_eqb t LibrespeedServer then 1 (* MB *)
  else elem dlSuffixes 2 (* jpg axis width *).

(** The seconds the download warm-up is taken to have lasted (lines
    77-80): if the bandwidth is too large, the download sometimes finishes
    earlier than the latency; in this case the latency is ignored. *)
Definition dlTimeSpent (latency : time.Duration) (sTime fTime : time.Time) : float :=
  let timeSpent := time.Seconds (time.Sub fTime (time.Add sTime latency)) in
  if (timeSpent <? 0)%float then time.Seconds (time.Sub fTime sTime)
  else timeSpent.

(** [float64(streams) * suffixToMB(s.Type, suffix) * 8 / timeSpent]
    (line 82), with the ten streams of the warm-up. *)
Definition dlWuSpeed (s : Server) (sTime fTime : time.Time) : float :=
  (float64 10 * suffixToMB (Type_ s) (dlWarmUpSuffix (Type_ s)) * 8
   / dlTimeSpent (Latency s) sTime fTime)%float.

(** The seconds the upload warm-up is taken to have lasted (line 187). *)
Definition ulTimeSpent (latency : time.Duration) (sTime fTime : time.Time) : float :=
  time.Seconds (time.Sub fTime (time.Add sTime latency)).

(** 1.0 MB for each request: [2 * 1.0 * 8 / ...Seconds()] (line 187); the
    constant [2 * 1.0 * 8] is 16. *)
Definition ulWuSpeed (s : Server) (sTime fTime : time.Time) : float :=
  (16 / ulTimeSpent (Latency s) sTime fTime)%float.

(** The suffix of the main download phase (lines 106-112): for librespeed
    the size is calculated from the number of streams and the duration. *)
Definition dlSuffix (t : ServerType) (b : Budget) (wuSpeed : float)
  (duration : time.Duration) : Z :=
  if ServerType_eqb t LibrespeedServer then
    int_of_float64 (wuSpeed / 8 / float64 (streams b) * time.Seconds duration)%float
  else elem dlSuffixes (weight b).

(** The admission loop (lines 130-141 and 228-239): each pass acquires a
    token, then stops if the deadline has passed or the context is done,
    and launches the next transfer otherwise.  [None] when the observations
    end before a pass stops the loop. *)
Fixpoint mainLoop (eTime : time.Time) (request : nat -> Call Transfer)
  (ps : list Admission) (k : nat) : Call (list Transfer) :=
  match ps with
  | [] => None
  | a :: ps' =>
      if time.After (now a) eTime || ctxErr a then ret []
      else
        t <- request k ;;
        ts <- mainLoop eTime request ps' (S k) ;;
        ret (t :: ts)
  end.

(** [byteTracker]: [totalBytes.Add(int64(nbytes))] for every update
    (the progress sink [s.Prog], which it also informs, is not modelled). *)
Definition byteTracker (total nbytes : Z) : Z :=
  wrap64 (total + int64_of_uint64 nbytes).

(** [totalBytes.Load()] after the join.  The updates are added transfer
    by transfer; the order does not matter
    ([totalBytes_any_interleaving]). *)
Definition totalBytes (ts : list Transfer) : Z :=
  fold_left byteTracker (List.concat (map reported ts)) 0%Z.

(** [float64(totalBytes.Load()/1024/1024) * compensationFactor * 8
     / fTime.Sub(sTime).Seconds()] (lines 144 and 242); the two divisions
    by 1024 are integer divisions. *)
Definition mainSpeed (total : Z) (sTime fTime : time.Time) : float :=
  (float64 (Z.quot (Z.quot total 1024) 1024) * compensationFactor * 8
   / time.Seconds (time.Sub fTime sTime))%float.

(** The main speedtest: the loop, the join and the speed. *)
Definition mainPhase (o : Observed) (duration : time.Duration)
  (request : nat -> Call Transfer) : Call float :=
  let sTime := mainStart o in
  let eTime := time.Add sTime duration in
  ts <- mainLoop eTime request (passes o) O ;;
  let fTime := mainEnd o in
  ret (mainSpeed (totalBytes ts) sTime fTime).

Definition downloadTestContext (s : Server) (o : Observed) (savingMode : bool)
  (duration : time.Duration) (dlWarmUp : downloadWarmUpFunc)
  (downloadRequest : downloadFunc) : Call (Server * option error) :=
  let suffix := dlWarmUpSuffix (Type_ s) in
  let streams0 := 10%nat in
  (* Warming up *)
  failed <- warmUp (dlWarmUp (Type_ s) (URL s) suffix) streams0 ;;
  match failed with
  | Some err => ret (s, Some err)
  | None =>
      let wuSpeed := dlWuSpeed s (wuStart o) (wuEnd o) in
      let b := dlBudget savingMode wuSpeed in
      let suffix := dlSuffix (Type_ s) b wuSpeed duration in
      (* Main speedtest *)
      if skip b then ret (set_DLSpeed s wuSpeed, None)
      else
        dlSpeed <- mainPhase o duration (downloadRequest (Type_ s) (URL s) suffix) ;;
        ret (set_DLSpeed s dlSpeed, None)
  end.

Definition uploadTestContext (s : Server) (o : Observed) (savingMode : bool)
  (duration : time.Duration) (ulWarmUp : uploadWarmUpFunc)
  (uploadRequest : uploadFunc) : Call (Server * option error) :=
  (* we need a 1MB file upload *)
  let sizeKB := elem dlSuffixes 4 in
  let streams0 := 2%nat in
  (* Warm up *)
  failed <- warmUp (ulWarmUp (Type_ s) (URL s) sizeKB) streams0 ;;
  match failed with
  | Some err => ret (s, Some err)
  | None =>
      let wuSpeed := ulWuSpeed s (wuStart o) (wuEnd o) in
      let b := ulBudget savingMode wuSpeed in
      let sizeKB := elem ulSuffixes (weight b) in
      (* Main speedtest *)
      if skip b then ret (set_ULSpeed s wuSpeed, None)
      else
        ulSpeed <- mainPhase o duration (uploadRequest (Type_ s) (URL s) sizeKB) ;;
        ret (set_ULSpeed s ulSpeed, None)
  end.

(** The public entry points: the engine with the transfer functions of
    [request.go] over the server's client.  The warm-up makes the first
    calls of the client, the main phase the following ones.  The context
    is part of the observations, so that [DownloadTest], which passes
    [context.Background()], is the same function. *)
Definition DownloadTestContext (s : Server) (doer : Client) (o : Observed)
  (savingMode : bool) (duration : time.Duration) : Call (Server * option error) :=
  downloadTestContext s o savingMode duration
    (fun t u x k => ret (dlWarmUp doer t u x k))
    (fun t u x k => ret (downloadRequest doer t true u x (10 + k))).

Definition UploadTestContext (s : Server) (doer : Client) (o : Observed)
  (savingMode : bool) (duration : time.Duration) : Call (Server * option error) :=
  uploadTestContext s o savingMode duration
    (fun t u x k => ulWarmUp doer t u x k)
    (fun t u x k => uploadRequest doer t true u x (2 + k)).

Definition DownloadTest := DownloadTestContext.

Definition UploadTest := UploadTestContext.

(* ================================================================== *)
(** ** The latency prober *)

(** The loop of [PingTestContext]: [n] round trips remain, [i] is the
    loop counter, [l] the smallest span so far; [clock i] is what
    [time.Now()] returned before and after round trip [i]. *)
Fixpoint pingLoop (doer : Client) (clock : nat -> time.Time * time.Time)
  (xpingURL : string) (n i : nat) (l : time.Duration) : error + time.Duration :=
  match n with
  | O => inr l
  | S n' =>
      let sTime := fst (clock i) in
      match NewRequest doer "GET" xpingURL with
      | Some err => inl err
      | None =>
          match answer (Do doer "GET" xpingURL "" i) with
          | inl err => inl err
          | inr _ =>
              let fTime := snd (clock i) in
              let l := if (time.Sub fTime sTime <? l)%Z then time.Sub fTime sTime else l in
              pingLoop doer clock xpingURL n' (S i) l
          end
      end
  end.

Definition PingTestContext (s : Server) (doer : Client)
  (clock : nat -> time.Time * time.Time) : Server * option error :=
  let xpingURL := getPingURL (URL s) (Type_ s) in
  let l := (time.Second * 10)%Z in
  match pingLoop doer clock xpingURL 3 0 l with
  | inl err => (s, Some err)
  | inr l => (set_Latency s (Z.quot (time.Nanoseconds l) 2), None)
  end.

Definition PingTest := PingTestContext.

(** The wall-clock span of round trip [i] of a ping test. *)
Definition span (clock : nat -> time.Time * time.Time) (i : nat) : time.Duration :=
  time.Sub (snd (clock i)) (fst (clock i)).

(* ================================================================== *)
(** ** The selection tables, as the specification words them *)

(** The warm-up speed, discretized by descending threshold comparison
    (>50, >10, >4, >2.5, else too slow). *)
Inductive Bucket : Set :=
| Over50
| Over10
| Over4
| Over2_5
| TooSlow.

Definition bucketOf (wuSpeed : float) : Bucket :=
  if (50 <? wuSpeed)%float then Over50
  else if (10 <? wuSpeed)%float then Over10
  else if (4 <? wuSpeed)%float then Over4
  else if (2.5 <? wuSpeed)%float then Over2_5
  else TooSlow.

Inductive Direction : Set :=
| Download
| Upload.

(** The fixed tables: one per direction, and the conservative one, which
    ignores the bucket. *)
Definition budgetTable (d : Direction) (savingMode : bool) (b : Bucket) : Budget :=
  match d, savingMode, b with
  | Download, true, _ => mkBudget 6 3 false
  | Download, false, Over50 => mkBudget 32 6 false
  | Download, false, Over10 => mkBudget 16 4 false
  | Download, false, Over4 => mkBudget 8 4 false
  | Download, false, Over2_5 => mkBudget 4 4 false
  | Download, false, TooSlow => mkBudget 10 0 true
  | Upload, true, _ => mkBudget 1 7 false
  | Upload, false, Over50 => mkBudget 40 9 false
  | Upload, false, Over10 => mkBudget 16 9 false
  | Upload, false, Over4 => mkBudget 8 9 false
  | Upload, false, Over2_5 => mkBudget 4 5 false
  | Upload, false, TooSlow => mkBudget 2 0 true
  end.

Definition budgetOf (d : Direction) : bool -> float -> Budget :=
  match d with
  | Download => dlBudget
  | Upload => ulBudget
  end.

(* ================================================================== *)
(** ** Concrete runs *)

(** Test doubles for the injected functions, as the engine's signature
    allows: a warm-up task that succeeds, a transfer that reports 512 KiB
    and succeeds, a transfer that fails before any byte. *)
Definition warmUpOK : ServerType -> string -> Z -> nat -> Call (option error) :=
  fun _ _ _ _ => ret None.

Definition halfMiB : ServerType -> string -> Z -> nat -> Call Transfer :=
  fun _ _ _ _ => ret (mkTransfer [524288%Z] None).

Definition resetting : ServerType -> string -> Z -> nat -> Call Transfer :=
  fun _ _ _ _ => ret (mkTransfer [] (Some "connection reset by peer")).

(** A client that cannot build a request, and one that answers every
    request with an empty body. *)
Definition deadClient : Client :=
  mkClient (fun _ _ => Some "unsupported protocol scheme")
           (fun _ _ _ _ => mkExchange [] (inl "unreachable")).

Definition echoClient : Client :=
  mkClient (fun _ _ => None)
           (fun _ _ _ _ => mkExchange [] (inr (mkResponse [] None))).

(** A client over which every transfer moves 512 KiB in one piece: the
    body of every response is read in one read of 524288 bytes, and the
    transport reads 524288 bytes of every request body. *)
Definition halfMiBClient : Client :=
  mkClient (fun _ _ => None)
           (fun _ _ _ _ => mkExchange [524288%Z] (inr (mkResponse [524288%Z] None))).

Definition classic : Server :=
  mkServer "http://x/upload.php" SpeedtestServer 0 0 0.

(** A warm-up of 100 s: 0.9 Mbps down, 0.16 Mbps up. *)
Definition slowWarmUp : Observed :=
  mkObserved 0 (100 * time.Second) (100 * time.Second) [] (100 * time.Second).

(** A warm-up of 1.5 s, then a main phase started at 2 s: passes at 2 s,
    2.5 s and 3 s launch a transfer, the pass at 4 s finds a deadline of
    3 s passed, and the last join is at 4 s. *)
Definition threeTransfers : Observed :=
  mkObserved 0 (1500 * time.Millisecond) (2 * time.Second)
    [mkAdmission (2000 * time.Millisecond) false;
     mkAdmission (2500 * time.Millisecond) false;
     mkAdmission (3000 * time.Millisecond) false;
     mkAdmission (4000 * time.Millisecond) true]
    (4 * time.Second).

(** A server whose recorded latency, 200 ms, exceeds the 100 ms its
    warm-up takes. *)
Definition laggy : Server :=
  mkServer "http://x/upload.php" SpeedtestServer (200 * time.Millisecond) 0 0.

Definition quickWarmUp : Observed :=
  mkObserved 0 (100 * time.Millisecond) (100 * time.Millisecond) []
    (100 * time.Millisecond).

(* ================================================================== *)
(** ** Notions used to state the properties *)

(** The sum of a list of byte counts. *)
Definition sumZ (l : list Z) : Z := fold_right Z.add 0%Z l.

(** A pass that ends the main loop: the deadline has passed or the context
    is done (the test of lines 132 and 230). *)
Definition stops (eTime : time.Time) (a : Admission) : bool :=
  time.After (now a) eTime || ctxErr a.

(** The buckets in ascending order of speed. *)
Definition rank (b : Bucket) : nat :=
  match b with
  | TooSlow => 0
  | Over2_5 => 1
  | Over4 => 2
  | Over10 => 3
  | Over50 => 4
  end.

(** A binary64 value whose sign bit is clear, or NaN: [+0], a positive
    finite value or [+inf]. *)
Definition sign_clear (f : spec_float) : Prop :=
  match f with
  | S754_zero s => s = false
  | S754_infinity s => s = false
  | S754_finite s _ _ => s = false
  | S754_nan => True
  end.

(** The descriptors that differ from [s] at most in one result field. *)
Definition same_but_Latency (s s' : Server) : Prop :=
  URL s' = URL s /\ Type_ s' = Type_ s /\ DLSpeed s' = DLSpeed s /\ ULSpeed s' = ULSpeed s.

Definition same_but_DLSpeed (s s' : Server) : Prop :=
  URL s' = URL s /\ Type_ s' = Type_ s /\ Latency s' = Latency s /\ ULSpeed s' = ULSpeed s.

Definition same_but_ULSpeed (s s' : Server) : Prop :=
  URL s' = URL s /\ Type_ s' = Type_ s /\ Latency s' = Latency s /\ DLSpeed s' = DLSpeed s.

(** A client whose requests are well formed and whose exchanges all fail
    after the transport has read 4096 bytes of the request body. *)
Definition resetClient : Client :=
  mkClient (fun _ _ => None)
           (fun _ _ _ _ => mkExchange [4096%Z] (inl "connection reset by peer")).

(** A client whose response bodies are read in pieces of 1000, 0 and 500
    bytes, the last read ending with an error. *)
Definition choppyClient : Client :=
  mkClient (fun _ _ => None)
           (fun _ _ _ _ =>
              mkExchange [] (inr (mkResponse [1000; 0; 500]%Z (Some "unexpected EOF")))).

(** A lightweight server, and a classic descriptor with earlier results. *)
Definition lightweight : Server :=
  mkServer "http://y" LibrespeedServer (20 * time.Millisecond) 0 0.

(** A classic descriptor with earlier speeds and no latency recorded. *)
Definition unpinged : Server :=
  mkServer "http://x/upload.php" SpeedtestServer 0 12.5 3.25.

Definition measured : Server :=
  mkServer "http://x/upload.php" SpeedtestServer (15 * time.Millisecond) 12.5 3.25.

(* ================================================================== *)
(** * Properties *)

(** A closed statement about concrete runs, settled by running them. *)
Ltac by_evaluation := repeat split; vm_compute; reflexivity.

(** A test call that returned an error returned it from its warm-up, and
    the descriptor with it unchanged: past the warm-up the error is nil. *)
Ltac error_only_from_warm_up :=
  destruct (warmUp _ _) as [[?|]|]; simpl; try discriminate;
  [ let H := fresh in intros H; inversion H; reflexivity
  | destruct (skip _); [discriminate|];
    destruct (mainPhase _ _ _); simpl; discriminate ].

(** ** Comparisons of binary64 values *)

(** Below a positive finite value: what is above the larger of two
    positive finite values is above the smaller one. *)
Lemma SFltb_above_larger (m1 m2 : positive) (e1 e2 : Z) (x : spec_float) :
  SFltb (S754_finite false m2 e2) (S754_finite false m1 e1) = true ->
  SFltb (S754_finite false m1 e1) x = true ->
  SFltb (S754_finite false m2 e2) x = true.
Proof.
  unfold SFltb, SFcompare.
  destruct x as [s|s| |s m e]; try (destruct s); try discriminate; try reflexivity.
  rewrite !Pos.compare_cont_spec. simpl.
  destruct (Z.compare_spec e2 e1), (Z.compare_spec e1 e), (Z.compare_spec e2 e);
    try discriminate; try reflexivity; try lia; subst.
  all: destruct (Pos.compare_spec m2 m1), (Pos.compare_spec m1 m), (Pos.compare_spec m2 m);
    try discriminate; try reflexivity; try lia.
Qed.

Lemma ltb_above_larger (c1 c2 x : float) (m1 m2 : positive) (e1 e2 : Z) :
  Prim2SF c1 = S754_finite false m1 e1 ->
  Prim2SF c2 = S754_finite false m2 e2 ->
  (c2 <? c1)%float = true ->
  (c1 <? x)%float = true -> (c2 <? x)%float = true.
Proof.
  rewrite !ltb_spec. intros -> ->. apply SFltb_above_larger.
Qed.

Lemma above_50_above_10 (x : float) :
  (50 <? x)%float = true -> (10 <? x)%float = true.
Proof. eapply ltb_above_larger; reflexivity. Qed.

Lemma above_10_above_4 (x : float) :
  (10 <? x)%float = true -> (4 <? x)%float = true.
Proof. eapply ltb_above_larger; reflexivity. Qed.

Lemma above_4_above_2_5 (x : float) :
  (4 <? x)%float = true -> (2.5 <? x)%float = true.
Proof. eapply ltb_above_larger; reflexivity. Qed.

(** The "too slow" bucket is exactly "not above 2.5". *)
Lemma bucketOf_TooSlow (wu : float) :
  bucketOf wu = TooSlow <-> (2.5 <? wu)%float = false.
Proof.
  unfold bucketOf. split.
  - destruct (50 <? wu)%float; [discriminate|].
    destruct (10 <? wu)%float; [discriminate|].
    destruct (4 <? wu)%float; [discriminate|].
    destruct (2.5 <? wu)%float; [discriminate|reflexivity].
  - intros H.
    destruct (4 <? wu)%float eqn:H4.
    { apply above_4_above_2_5 in H4. congruence. }
    destruct (10 <? wu)%float eqn:H10.
    { apply above_10_above_4 in H10. congruence. }
    destruct (50 <? wu)%float eqn:H50.
    { apply above_50_above_10 in H50. congruence. }
    rewrite H. reflexivity.
Qed.

(** The budget is read off the table at the bucket of the warm-up speed. *)
Lemma budgetOf_table (d : Direction) (savingMode : bool) (wu : float) :
  budgetOf d savingMode wu = budgetTable d savingMode (bucketOf wu).
Proof.
  unfold budgetOf, dlBudget, ulBudget, bucketOf.
  destruct d, savingMode; try reflexivity;
    destruct (50 <? wu)%float; try reflexivity;
    destruct (10 <? wu)%float; try reflexivity;
    destruct (4 <? wu)%float; try reflexivity;
    destruct (2.5 <? wu)%float; reflexivity.
Qed.

Lemma skip_iff_TooSlow (d : Direction) (wu : float) :
  skip (budgetOf d false wu) = true <-> bucketOf wu = TooSlow.
Proof.
  rewrite budgetOf_table.
  destruct d, (bucketOf wu); simpl; split; congruence.
Qed.

(** ** Signs of binary64 values *)

Lemma binary_round_aux_not_negative (mx ex : Z) (lx : location) :
  not_negative (binary_round_aux prec emax false mx ex lx).
Proof.
  unfold binary_round_aux.
  destruct (shr_fexp prec emax mx ex lx) as [mrs' e'].
  destruct (shr_fexp prec emax _ e' loc_Exact) as [mrs'' e''].
  destruct (shr_m mrs''); simpl; auto.
  destruct (_ <=? _)%Z; simpl; auto.
Qed.

Lemma binary_round_not_negative (m : positive) (e : Z) :
  not_negative (binary_round prec emax false m e).
Proof.
  unfold binary_round.
  destruct (shl_align m e _) as [mz ez].
  apply binary_round_aux_not_negative.
Qed.

Lemma binary_normalize_not_negative (z e : Z) :
  (0 <= z)%Z -> not_negative (binary_normalize prec emax z e false).
Proof.
  intros Hz. destruct z as [|m|m]; simpl; auto.
  - apply binary_round_not_negative.
  - lia.
Qed.

Lemma SFldexp_not_negative (f : spec_float) (e : Z) :
  not_negative f -> not_negative (SFldexp prec emax f e).
Proof.
  destruct f as [s|s| |s m x]; simpl; auto.
  intros ->. apply binary_round_not_negative.
Qed.

Lemma SF2Prim_not_negative (f : spec_float) :
  not_negative f -> not_negative (Prim2SF (SF2Prim f)).
Proof.
  destruct f as [[|]|[|]| |[|] m e]; simpl; try discriminate; intros _;
    try exact I; try reflexivity.
  rewrite Z_ldexp_spec. apply SFldexp_not_negative.
  rewrite of_uint63_spec. apply binary_normalize_not_negative.
  apply Uint63.to_Z_bounded.
Qed.

Lemma float64_not_negative (z : Z) :
  (0 <= z)%Z -> not_negative (Prim2SF (float64 z)).
Proof.
  intros Hz. apply SF2Prim_not_negative, binary_normalize_not_negative, Hz.
Qed.

Lemma SFadd_not_negative (x y : spec_float) :
  not_negative x -> not_negative y -> not_negative (SF64add x y).
Proof.
  destruct x as [sx|sx| |sx mx ex], y as [sy|sy| |sy my ey]; simpl;
    try (intros; subst; simpl; auto; fail).
  - destruct sx, sy; simpl; auto.
  - intros -> ->. simpl. apply binary_round_not_negative.
Qed.

Lemma SFdiv_not_negative (x : spec_float) (m : positive) (e : Z) :
  not_negative x -> not_negative (SF64div x (S754_finite false m e)).
Proof.
  destruct x as [sx|sx| |sx mx ex]; simpl; auto.
  - intros ->. reflexivity.
  - intros ->. unfold SF64div, SFdiv.
    destruct (SFdiv_core_binary _ _ _ _ _ _) as [[mz ez] lz].
    apply binary_round_aux_not_negative.
Qed.

Lemma not_negative_ltb_zero (x : float) :
  not_negative (Prim2SF x) -> (x <? 0)%float = false.
Proof.
  rewrite FloatAxioms.ltb_spec. change (Prim2SF 0) with (S754_zero false).
  destruct (Prim2SF x) as [s|s| |s m e]; simpl; try reflexivity;
    intros ->; reflexivity.
Qed.

(** The seconds of a duration that is not negative are not negative. *)
Lemma Seconds_not_negative (d : time.Duration) :
  (0 <= d)%Z -> (time.Seconds d <? 0)%float = false.
Proof.
  intros Hd. apply not_negative_ltb_zero. unfold time.Seconds.
  rewrite add_spec. apply SFadd_not_negative.
  - apply float64_not_negative.
    apply Z.quot_pos; [exact Hd|]. unfold time.Second. lia.
  - rewrite div_spec.
    change (Prim2SF 1e9) with (S754_finite false 8388608000000000 (-23)).
    apply SFdiv_not_negative, float64_not_negative.
    apply Z.rem_nonneg; [unfold time.Second; lia|exact Hd].
Qed.

(** ** The selection of streams and payload *)

(** C1: the stream count and the payload weight are a function of the
    bucket of the warm-up speed, the conservative flag and the direction,
    read off the fixed tables.  A download with conservative mode off and
    a warm-up speed of 60 Mbps (a classic server whose ten warm-up
    downloads took 1.5 s) is in the bucket ">50" and gets 32 streams and
    the payload [dlSuffixes[6] = 2500], which is the payload its main
    phase requests; an upload in conservative mode gets 1 stream and
    weight 7 whatever the warm-up speed, and its main phase uploads
    [ulSuffixes[7]] kB per request. *)
Theorem selection_is_table_lookup :
  (forall d savingMode wu,
      budgetOf d savingMode wu = budgetTable d savingMode (bucketOf wu))
  /\ (forall url dl ul,
         dlWuSpeed (mkServer url SpeedtestServer 0 dl ul) 0 (1500 * time.Millisecond)
         = 60%float)
  /\ bucketOf 60 = Over50
  /\ dlBudget false 60 = mkBudget 32 6 false
  /\ (forall duration,
         dlSuffix SpeedtestServer (dlBudget false 60) 60 duration = 2500
         /\ elem dlSuffixes 6 = 2500)
  /\ (forall duration R,
         downloadTestContext classic threeTransfers false duration warmUpOK R
         = (dlSpeed <- mainPhase threeTransfers duration
                         (R SpeedtestServer (URL classic) 2500) ;;
            ret (set_DLSpeed classic dlSpeed, None)))
  /\ (forall wu,
         streams (ulBudget true wu) = 1 /\ weight (ulBudget true wu) = 7%nat
         /\ skip (ulBudget true wu) = false)
  /\ (forall s o duration R,
         uploadTestContext s o true duration warmUpOK R
         = (ulSpeed <- mainPhase o duration (R (Type_ s) (URL s) (elem ulSuffixes 7)) ;;
            ret (set_ULSpeed s ulSpeed, None))).
Proof.
  split; [exact budgetOf_table|].
  split; [intros; vm_compute; reflexivity|].
  split; [vm_compute; reflexivity|].
  split; [vm_compute; reflexivity|].
  split; [intros; split; vm_compute; reflexivity|].
  split; [intros; reflexivity|].
  split; [intros wu; unfold ulBudget; simpl; auto|].
  intros; reflexivity.
Qed.

(** ** The shape of a test call *)

Section DownloadCall.

Variables (s : Server) (o : Observed) (savingMode : bool) (duration : time.Duration).
Variables (W : downloadWarmUpFunc) (R : downloadFunc).

Let wuSpeed : float := dlWuSpeed s (wuStart o) (wuEnd o).
Let b : Budget := dlBudget savingMode wuSpeed.

Lemma downloadTestContext_warm_up_failed (err : error) :
  warmUp (W (Type_ s) (URL s) (dlWarmUpSuffix (Type_ s))) 10 = Some (Some err) ->
  downloadTestContext s o savingMode duration W R = Some (s, Some err).
Proof. unfold downloadTestContext. intros ->. reflexivity. Qed.

Section WarmedUp.

Hypothesis Hwarm :
  warmUp (W (Type_ s) (URL s) (dlWarmUpSuffix (Type_ s))) 10 = Some None.

Lemma downloadTestContext_skip :
  skip b = true ->
  downloadTestContext s o savingMode duration W R = Some (set_DLSpeed s wuSpeed, None).
Proof.
  unfold downloadTestContext. rewrite Hwarm. intros Hskip. simpl.
  fold wuSpeed. fold b. rewrite Hskip. reflexivity.
Qed.

(** When the main phase runs and its loop ends after launching [ts], the
    call succeeds and stores the speed of the bytes [ts] reported over the
    span from the start of the loop to the last join. *)
Lemma downloadTestContext_main (ts : list Transfer) :
  skip b = false ->
  mainLoop (time.Add (mainStart o) duration)
    (R (Type_ s) (URL s) (dlSuffix (Type_ s) b wuSpeed duration)) (passes o) 0 = Some ts ->
  downloadTestContext s o savingMode duration W R
  = Some (set_DLSpeed s (mainSpeed (totalBytes ts) (mainStart o) (mainEnd o)), None).
Proof.
  intros Hskip Hloop. unfold downloadTestContext.
  rewrite Hwarm. simpl. fold wuSpeed. fold b. rewrite Hskip.
  unfold mainPhase. rewrite Hloop. reflexivity.
Qed.

End WarmedUp.

End DownloadCall.

Section UploadCall.

Variables (s : Server) (o : Observed) (savingMode : bool) (duration : time.Duration).
Variables (W : uploadWarmUpFunc) (R : uploadFunc).

Let wuSpeed : float := ulWuSpeed s (wuStart o) (wuEnd o).
Let b : Budget := ulBudget savingMode wuSpeed.

Lemma uploadTestContext_warm_up_failed (err : error) :
  warmUp (W (Type_ s) (URL s) (elem dlSuffixes 4)) 2 = Some (Some err) ->
  uploadTestContext s o savingMode duration W R = Some (s, Some err).
Proof. unfold uploadTestContext. intros ->. reflexivity. Qed.

Section WarmedUp.

Hypothesis Hwarm : warmUp (W (Type_ s) (URL s) (elem dlSuffixes 4)) 2 = Some None.

Lemma uploadTestContext_skip :
  skip b = true ->
  uploadTestContext s o savingMode duration W R = Some (set_ULSpeed s wuSpeed, None).
Proof.
  unfold uploadTestContext. rewrite Hwarm. intros Hskip. simpl.
  fold wuSpeed. fold b. rewrite Hskip. reflexivity.
Qed.

Lemma uploadTestContext_main (ts : list Transfer) :
  skip b = false ->
  mainLoop (time.Add (mainStart o) duration)
    (R (Type_ s) (URL s) (elem ulSuffixes (weight b))) (passes o) 0 = Some ts ->
  uploadTestContext s o savingMode duration W R
  = Some (set_ULSpeed s (mainSpeed (totalBytes ts) (mainStart o) (mainEnd o)), None).
Proof.
  intros Hskip Hloop. unfold uploadTestContext.
  rewrite Hwarm. simpl. fold wuSpeed. fold b. rewrite Hskip.
  unfold mainPhase. rewrite Hloop. reflexivity.
Qed.

End WarmedUp.

End UploadCall.

(** X3: the admission loop ends no later than a pass that finds the
    deadline passed or the context done, provided the transfers launched
    before it return; it has launched at most one transfer per earlier
    pass. *)
Theorem mainLoop_returns (eTime : time.Time) (request : nat -> Call Transfer)
  (before : list Admission) (last : Admission) (after : list Admission) (k : nat) :
  (forall i, request i <> None) ->
  time.After (now last) eTime || ctxErr last = true ->
  exists ts, mainLoop eTime request (before ++ last :: after) k = Some ts
             /\ (List.length ts <= List.length before)%nat.
Proof.
  intros Hreq Hlast. revert k.
  induction before as [|a before IH]; intros k; simpl.
  - rewrite Hlast. exists []. split; [reflexivity|simpl; lia].
  - destruct (time.After (now a) eTime || ctxErr a).
    + exists []. split; [reflexivity|simpl; lia].
    + destruct (request k) as [t|] eqn:Hk; [|exfalso; exact (Hreq k Hk)].
      destruct (IH (S k)) as [ts [-> Hlen]]. simpl.
      exists (t :: ts). split; [reflexivity|simpl; lia].
Qed.

Lemma mainLoop_returns_witness :
  exists ts,
    mainLoop (3 * time.Second) (halfMiB SpeedtestServer (URL classic) 2500)
      (passes threeTransfers) 0 = Some ts
    /\ (List.length ts <= 3)%nat.
Proof.
  apply (mainLoop_returns (3 * time.Second) (halfMiB SpeedtestServer (URL classic) 2500)
           [mkAdmission (2000 * time.Millisecond) false;
            mkAdmission (2500 * time.Millisecond) false;
            mkAdmission (3000 * time.Millisecond) false]
           (mkAdmission (4000 * time.Millisecond) true) [] 0).
  - intros i. discriminate.
  - reflexivity.
Defined.

(** ** The aggregate counter *)

Lemma wrap64_add_l (u v : Z) : wrap64 (wrap64 u + v) = wrap64 (u + v).
Proof.
  unfold wrap64. f_equal.
  replace ((u + 2 ^ 63) mod 2 ^ 64 - 2 ^ 63 + v + 2 ^ 63)%Z
    with ((u + 2 ^ 63) mod 2 ^ 64 + v)%Z by lia.
  rewrite Zplus_mod_idemp_l. f_equal. lia.
Qed.

Lemma byteTracker_comm (total x y : Z) :
  byteTracker (byteTracker total x) y = byteTracker (byteTracker total y) x.
Proof.
  unfold byteTracker. rewrite !wrap64_add_l. f_equal. lia.
Qed.

Lemma fold_byteTracker_perm (l l' : list Z) :
  Permutation l l' ->
  forall total, fold_left byteTracker l total = fold_left byteTracker l' total.
Proof.
  induction 1 as [|x l l' _ IH|x y l|l l' l'' _ IH1 _ IH2]; intros total; simpl.
  - reflexivity.
  - apply IH.
  - rewrite byteTracker_comm. reflexivity.
  - rewrite IH1. apply IH2.
Qed.

(** X2: the counter does not depend on how the updates of the concurrent
    transfers interleave: any order of the same updates gives the total
    the model computes transfer by transfer. *)
Theorem totalBytes_any_interleaving (ts : list Transfer) (updates : list Z) :
  Permutation updates (List.concat (map reported ts)) ->
  fold_left byteTracker updates 0%Z = totalBytes ts.
Proof.
  intros H. unfold totalBytes. apply fold_byteTracker_perm, H.
Qed.

Lemma totalBytes_any_interleaving_witness :
  fold_left byteTracker [30; 10; 40; 20]%Z 0%Z
  = totalBytes [mkTransfer [10; 20]%Z None; mkTransfer [30; 40]%Z (Some "EOF")].
Proof.
  apply (totalBytes_any_interleaving
           [mkTransfer [10; 20]%Z None; mkTransfer [30; 40]%Z (Some "EOF")]
           [30; 10; 40; 20]%Z).
  simpl.
  apply perm_trans with (l' := [10; 30; 40; 20]%Z); [apply perm_swap|].
  apply perm_skip.
  apply perm_trans with (l' := [30; 20; 40]%Z); [apply perm_skip, perm_swap|].
  apply perm_swap.
Defined.

(** ** The "too slow" bucket *)

(** C2: in a download or an upload with conservative mode off whose warm-up
    succeeds with a speed not above 2.5 Mbps, the call returns without
    running the main phase (whatever the observations of the main phase
    and the request function would be), returns no error, and the speed
    field of the descriptor it returns holds the warm-up speed itself, the
    other fields being those of the descriptor given. *)
Theorem too_slow_stores_warm_up_speed
  (s : Server) (sTime fTime : time.Time) (duration : time.Duration)
  (dlW : downloadWarmUpFunc) (ulW : uploadWarmUpFunc) :
  (warmUp (dlW (Type_ s) (URL s) (dlWarmUpSuffix (Type_ s))) 10 = Some None ->
   (2.5 <? dlWuSpeed s sTime fTime)%float = false ->
   forall (o : Observed) (dlR : downloadFunc),
     wuStart o = sTime -> wuEnd o = fTime ->
     exists s',
       downloadTestContext s o false duration dlW dlR = Some (s', None)
       /\ DLSpeed s' = dlWuSpeed s sTime fTime
       /\ same_but_DLSpeed s s')
  /\
  (warmUp (ulW (Type_ s) (URL s) (elem dlSuffixes 4)) 2 = Some None ->
   (2.5 <? ulWuSpeed s sTime fTime)%float = false ->
   forall (o : Observed) (ulR : uploadFunc),
     wuStart o = sTime -> wuEnd o = fTime ->
     exists s',
       uploadTestContext s o false duration ulW ulR = Some (s', None)
       /\ ULSpeed s' = ulWuSpeed s sTime fTime
       /\ same_but_ULSpeed s s').
Proof.
  split; intros Hwarm Hslow o R <- <-.
  - exists (set_DLSpeed s (dlWuSpeed s (wuStart o) (wuEnd o))).
    split; [|split; [reflexivity|repeat split]].
    apply downloadTestContext_skip; [exact Hwarm|].
    apply (skip_iff_TooSlow Download), bucketOf_TooSlow, Hslow.
  - exists (set_ULSpeed s (ulWuSpeed s (wuStart o) (wuEnd o))).
    split; [|split; [reflexivity|repeat split]].
    apply uploadTestContext_skip; [exact Hwarm|].
    apply (skip_iff_TooSlow Upload), bucketOf_TooSlow, Hslow.
Qed.

Lemma too_slow_stores_warm_up_speed_witness :
  (exists s',
      downloadTestContext unpinged slowWarmUp false (10 * time.Second) warmUpOK halfMiB
      = Some (s', None)
      /\ DLSpeed s' = 0.9%float /\ ULSpeed s' = 3.25%float)
  /\ (exists s',
         uploadTestContext unpinged slowWarmUp false (10 * time.Second) warmUpOK halfMiB
         = Some (s', None)
         /\ ULSpeed s' = 0.16%float /\ DLSpeed s' = 12.5%float).
Proof.
  pose proof (too_slow_stores_warm_up_speed unpinged 0 (100 * time.Second)
                (10 * time.Second) warmUpOK warmUpOK) as [Hd Hu].
  split.
  - destruct (Hd eq_refl eq_refl slowWarmUp halfMiB eq_refl eq_refl)
      as [s' [Hrun [Hspeed [_ [_ [_ Hother]]]]]].
    exists s'. split; [exact Hrun|]. split; [exact Hspeed|exact Hother].
  - destruct (Hu eq_refl eq_refl slowWarmUp halfMiB eq_refl eq_refl)
      as [s' [Hrun [Hspeed [_ [_ [_ Hother]]]]]].
    exists s'. split; [exact Hrun|]. split; [exact Hspeed|exact Hother].
Defined.

(** ** Errors *)

Lemma PingTestContext_error (s s' : Server) (doer : Client)
  (clock : nat -> time.Time * time.Time) (err : error) :
  PingTestContext s doer clock = (s', Some err) -> s' = s.
Proof.
  unfold PingTestContext.
  destruct (pingLoop _ _ _ _ _ _); intros H; inversion H; reflexivity.
Qed.

Lemma downloadTestContext_error (s s' : Server) (o : Observed) (savingMode : bool)
  (duration : time.Duration) (W : downloadWarmUpFunc) (R : downloadFunc) (err : error) :
  downloadTestContext s o savingMode duration W R = Some (s', Some err) -> s' = s.
Proof. unfold downloadTestContext. error_only_from_warm_up. Qed.

Lemma uploadTestContext_error (s s' : Server) (o : Observed) (savingMode : bool)
  (duration : time.Duration) (W : uploadWarmUpFunc) (R : uploadFunc) (err : error) :
  uploadTestContext s o savingMode duration W R = Some (s', Some err) -> s' = s.
Proof. unfold uploadTestContext. error_only_from_warm_up. Qed.

Lemma Wait_In (results : list (option error)) (err : error) :
  In (Some err) results ->
  exists err', Wait results = Some err' /\ In (Some err') results.
Proof.
  induction results as [|[e|] results IH]; simpl; intros H.
  - contradiction.
  - exists e. split; [reflexivity|left; reflexivity].
  - destruct H as [H|H]; [discriminate|].
    destruct (IH H) as [err' [Hw Hin]].
    exists err'. split; [exact Hw|right; exact Hin].
Qed.

(** X4: a warm-up task that fails aborts the test.  When the warm-up tasks
    all return and one of them returns an error, the download test (and
    likewise the upload test) returns the error of a warm-up task, and the
    descriptor as it was. *)
Theorem warm_up_error_aborts_test
  (s : Server) (o : Observed) (savingMode : bool) (duration : time.Duration)
  (dlW : downloadWarmUpFunc) (dlR : downloadFunc)
  (ulW : uploadWarmUpFunc) (ulR : uploadFunc)
  (results : list (option error)) (err : error) :
  In (Some err) results ->
  (collect (map (dlW (Type_ s) (URL s) (dlWarmUpSuffix (Type_ s))) (seq 0 10))
   = Some results ->
   exists err', In (Some err') results
     /\ downloadTestContext s o savingMode duration dlW dlR = Some (s, Some err'))
  /\
  (collect (map (ulW (Type_ s) (URL s) (elem dlSuffixes 4)) (seq 0 2))
   = Some results ->
   exists err', In (Some err') results
     /\ uploadTestContext s o savingMode duration ulW ulR = Some (s, Some err')).
Proof.
  intros Hin. destruct (Wait_In results err Hin) as [err' [Hw Hin']].
  split; intros Hc; exists err'; (split; [exact Hin'|]).
  - apply downloadTestContext_warm_up_failed.
    unfold warmUp. rewrite Hc. simpl. rewrite Hw. reflexivity.
  - apply uploadTestContext_warm_up_failed.
    unfold warmUp. rewrite Hc. simpl. rewrite Hw. reflexivity.
Qed.

Lemma warm_up_error_aborts_test_witness :
  exists err',
    downloadTestContext classic threeTransfers false time.Second
      (fun _ _ _ k => ret (if (k =? 7)%nat then Some "timeout" else None)) halfMiB
    = Some (classic, Some err').
Proof.
  pose (W := fun (_ : ServerType) (_ : string) (_ : Z) (k : nat) =>
               ret (if (k =? 7)%nat then Some "timeout" else None) : Call (option error)).
  pose (results := [None; None; None; None; None; None; None; Some "timeout"; None; None]
                   : list (option error)).
  assert (Hin : In (Some "timeout") results) by (simpl; tauto).
  destruct (warm_up_error_aborts_test classic threeTransfers false time.Second
              W halfMiB W halfMiB results "timeout" Hin) as [Hd _].
  destruct (Hd eq_refl) as [err' [_ Hrun]].
  exists err'. exact Hrun.
Defined.

(** C7: when a public entry point returns an error, the descriptor it
    returns is the one it was given: the ping test leaves [Latency], the
    download test [DLSpeed] and the upload test [ULSpeed] at their previous
    values. *)
Theorem error_leaves_field_unmodified
  (s s' : Server) (doer : Client) (clock : nat -> time.Time * time.Time)
  (o : Observed) (savingMode : bool) (duration : time.Duration) (err : error) :
  (PingTestContext s doer clock = (s', Some err) ->
   s' = s /\ Latency s' = Latency s)
  /\ (DownloadTestContext s doer o savingMode duration = Some (s', Some err) ->
      s' = s /\ DLSpeed s' = DLSpeed s)
  /\ (UploadTestContext s doer o savingMode duration = Some (s', Some err) ->
      s' = s /\ ULSpeed s' = ULSpeed s).
Proof.
  repeat split.
  - eapply PingTestContext_error; eassumption.
  - f_equal. eapply PingTestContext_error; eassumption.
  - eapply downloadTestContext_error; eassumption.
  - f_equal. eapply downloadTestContext_error; eassumption.
  - eapply uploadTestContext_error; eassumption.
  - f_equal. eapply uploadTestContext_error; eassumption.
Qed.

Lemma error_leaves_field_unmodified_witness :
  Latency (fst (PingTestContext laggy deadClient (fun _ => (0, 1)%Z)))
  = (200 * time.Millisecond)%Z
  /\ (exists s', DownloadTestContext laggy deadClient slowWarmUp false (10 * time.Second)
                 = Some (s', Some "unsupported protocol scheme")
                 /\ DLSpeed s' = DLSpeed laggy)
  /\ (exists s', UploadTestContext laggy deadClient slowWarmUp false (10 * time.Second)
                 = Some (s', Some "unsupported protocol scheme")
                 /\ ULSpeed s' = ULSpeed laggy).
Proof.
  pose proof (error_leaves_field_unmodified laggy laggy deadClient (fun _ => (0, 1)%Z)
                slowWarmUp false (10 * time.Second) "unsupported protocol scheme")
    as [Hp [Hd Hu]].
  split; [|split].
  - replace (PingTestContext laggy deadClient (fun _ => (0, 1)%Z))
      with (laggy, Some "unsupported protocol scheme") by reflexivity.
    exact (proj2 (Hp eq_refl)).
  - exists laggy. split; [reflexivity|exact (proj2 (Hd eq_refl))].
  - exists laggy. split; [reflexivity|exact (proj2 (Hu eq_refl))].
Defined.

(** C6, as the code has it: the errors of the transfers of the main phase
    are not surfaced.  When the warm-up succeeds, the main phase runs and
    every transfer it launched fails, the call still returns success, with
    the speed of the bytes the transfers reported before failing. *)
Theorem main_phase_failures_return_success
  (s : Server) (o : Observed) (savingMode : bool) (duration : time.Duration)
  (dlW : downloadWarmUpFunc) (dlR : downloadFunc)
  (ulW : uploadWarmUpFunc) (ulR : uploadFunc) (ts : list Transfer) :
  Forall (fun t => result t <> None) ts ->
  (let wuSpeed := dlWuSpeed s (wuStart o) (wuEnd o) in
   let b := dlBudget savingMode wuSpeed in
   warmUp (dlW (Type_ s) (URL s) (dlWarmUpSuffix (Type_ s))) 10 = Some None ->
   skip b = false ->
   mainLoop (time.Add (mainStart o) duration)
     (dlR (Type_ s) (URL s) (dlSuffix (Type_ s) b wuSpeed duration)) (passes o) 0 = Some ts ->
   downloadTestContext s o savingMode duration dlW dlR
   = Some (set_DLSpeed s (mainSpeed (totalBytes ts) (mainStart o) (mainEnd o)), None))
  /\
  (let b := ulBudget savingMode (ulWuSpeed s (wuStart o) (wuEnd o)) in
   warmUp (ulW (Type_ s) (URL s) (elem dlSuffixes 4)) 2 = Some None ->
   skip b = false ->
   mainLoop (time.Add (mainStart o) duration)
     (ulR (Type_ s) (URL s) (elem ulSuffixes (weight b))) (passes o) 0 = Some ts ->
   uploadTestContext s o savingMode duration ulW ulR
   = Some (set_ULSpeed s (mainSpeed (totalBytes ts) (mainStart o) (mainEnd o)), None)).
Proof.
  intros _. split.
  - intros wuSpeed b Hwarm Hskip Hloop.
    apply downloadTestContext_main; assumption.
  - intros b Hwarm Hskip Hloop.
    apply uploadTestContext_main; assumption.
Qed.

Lemma main_phase_failures_return_success_witness :
  downloadTestContext classic threeTransfers false time.Second warmUpOK resetting
  = Some (set_DLSpeed classic 0, None)
  /\ uploadTestContext classic threeTransfers false time.Second warmUpOK resetting
     = Some (set_ULSpeed classic 0, None).
Proof.
  pose (failed := mkTransfer [] (Some "connection reset by peer")).
  assert (Hall : Forall (fun t => result t <> None) [failed; failed; failed])
    by (repeat constructor; discriminate).
  pose proof (main_phase_failures_return_success classic threeTransfers false
                time.Second warmUpOK resetting warmUpOK resetting
                [failed; failed; failed] Hall) as [Hd Hu].
  split.
  - exact (Hd eq_refl eq_refl eq_refl).
  - exact (Hu eq_refl eq_refl eq_refl).
Defined.

(** C6, as stated, fails: in this download (and this upload) the warm-up
    succeeds, the main phase launches three transfers, each of them fails,
    and the call returns no error and stores the speed 0. *)
Lemma all_transfers_fail_no_error :
  let failed := mkTransfer [] (Some "connection reset by peer") in
  mainLoop (time.Add (mainStart threeTransfers) time.Second)
    (resetting SpeedtestServer (URL classic) 2500) (passes threeTransfers) 0
  = Some [failed; failed; failed]
  /\ Forall (fun t => result t <> None) [failed; failed; failed]
  /\ downloadTestContext classic threeTransfers false time.Second warmUpOK resetting
     = Some (set_DLSpeed classic 0, None)
  /\ uploadTestContext classic threeTransfers false time.Second warmUpOK resetting
     = Some (set_ULSpeed classic 0, None)
  /\ ~ (exists s' err,
          downloadTestContext classic threeTransfers false time.Second warmUpOK resetting
          = Some (s', Some err))
  /\ ~ (exists s' err,
          uploadTestContext classic threeTransfers false time.Second warmUpOK resetting
          = Some (s', Some err)).
Proof.
  intros failed.
  split; [reflexivity|].
  split; [repeat constructor; discriminate|].
  split; [reflexivity|].
  split; [reflexivity|].
  split; intros [s' [err H]]; vm_compute in H; discriminate.
Qed.

(** ** The speed of the main phase *)

(** C3 at a concrete run: a conservative upload (and the same download)
    whose main phase lasts 2 s from the start of the loop to the last join,
    for a nominal duration of 1 s, and whose three transfers report 512 KiB
    each (with test doubles for the transfer functions, and through the
    public entry points over a client).  The span is the measured one,
    2 s; but the 1.5 MiB counted are cut to 1 whole MiB by the integer
    division, and the speed stored is 4.16, that of 1 MiB, where
    (totalBytes / 1MB) x 1.04 x 8 / 2 is 6.24. *)
Theorem main_speed_drops_fraction_of_megabyte :
  let t := mkTransfer [524288%Z] None in
  mainLoop (time.Add (mainStart threeTransfers) time.Second)
    (halfMiB SpeedtestServer (URL classic) 3000) (passes threeTransfers) 0
  = Some [t; t; t]
  /\ totalBytes [t; t; t] = 1572864%Z
  /\ time.Seconds (time.Sub (mainEnd threeTransfers) (mainStart threeTransfers)) = 2%float
  /\ uploadTestContext classic threeTransfers true time.Second warmUpOK halfMiB
     = Some (set_ULSpeed classic 4.16, None)
  /\ downloadTestContext classic threeTransfers true time.Second warmUpOK halfMiB
     = Some (set_DLSpeed classic 4.16, None)
  /\ UploadTest classic halfMiBClient threeTransfers true time.Second
     = Some (set_ULSpeed classic 4.16, None)
  /\ DownloadTest classic halfMiBClient threeTransfers true time.Second
     = Some (set_DLSpeed classic 4.16, None)
  /\ mainSpeed 1572864 (2 * time.Second) (4 * time.Second)
     = mainSpeed 1048576 (2 * time.Second) (4 * time.Second)
  /\ (float64 1572864 / float64 (1024 * 1024) * compensationFactor * 8 / 2 = 6.24)%float
  /\ (4.16 <? 6.24)%float = true.
Proof.
  intros t.
  do 5 (split; [vm_compute; reflexivity|]).
  split; [reflexivity|].
  by_evaluation.
Qed.

(** ** The span of the warm-up *)

(** X1: in the warm-up of a download, on a clock that does not run
    backwards, the seconds the warm-up speed is divided by are never
    negative, whatever the latency of the server: they are the seconds of
    the raw span when those of the latency-corrected span are negative,
    and those of the latency-corrected span otherwise, which is the case
    whenever the latency does not exceed the span. *)
Theorem download_warm_up_span_not_negative
  (latency : time.Duration) (sTime fTime : time.Time) :
  (sTime <= fTime)%Z ->
  let corrected := time.Seconds (time.Sub fTime (time.Add sTime latency)) in
  let raw := time.Seconds (time.Sub fTime sTime) in
  (dlTimeSpent latency sTime fTime <? 0)%float = false
  /\ ((corrected <? 0)%float = true -> dlTimeSpent latency sTime fTime = raw)
  /\ ((corrected <? 0)%float = false -> dlTimeSpent latency sTime fTime = corrected)
  /\ ((sTime + latency <= fTime)%Z -> dlTimeSpent latency sTime fTime = corrected).
Proof.
  intros H corrected raw. unfold dlTimeSpent. fold corrected. fold raw.
  split; [|split; [|split]].
  - destruct (corrected <? 0)%float eqn:E; [|exact E].
    apply Seconds_not_negative.
    unfold time.Sub, time.maxDuration, time.minDuration, maxInt64, minInt64.
    destruct (Z.ltb_spec (2 ^ 63 - 1) (fTime - sTime)); [lia|].
    destruct (Z.ltb_spec (fTime - sTime) (- 2 ^ 63)); lia.
  - intros ->. reflexivity.
  - intros ->. reflexivity.
  - intros Hfits.
    assert (E : (corrected <? 0)%float = false).
    { apply Seconds_not_negative. unfold time.Add.
      unfold time.Sub, time.maxDuration, time.minDuration, maxInt64, minInt64.
      destruct (Z.ltb_spec (2 ^ 63 - 1) (fTime - (sTime + latency))); [lia|].
      destruct (Z.ltb_spec (fTime - (sTime + latency)) (- 2 ^ 63)); lia. }
    rewrite E. reflexivity.
Qed.

Lemma download_warm_up_span_not_negative_witness :
  (dlTimeSpent (Latency laggy) (wuStart quickWarmUp) (wuEnd quickWarmUp) <? 0)%float
  = false
  /\ dlTimeSpent (Latency laggy) (wuStart quickWarmUp) (wuEnd quickWarmUp)
     = time.Seconds (time.Sub (wuEnd quickWarmUp) (wuStart quickWarmUp))
  /\ dlTimeSpent 0 (wuStart quickWarmUp) (wuEnd quickWarmUp)
     = time.Seconds (time.Sub (wuEnd quickWarmUp) (time.Add (wuStart quickWarmUp) 0)).
Proof.
  assert (Hclock : (wuStart quickWarmUp <= wuEnd quickWarmUp)%Z)
    by (vm_compute; discriminate).
  destruct (download_warm_up_span_not_negative (Latency laggy) (wuStart quickWarmUp)
              (wuEnd quickWarmUp) Hclock) as [Hpos [Hraw _]].
  destruct (download_warm_up_span_not_negative 0 (wuStart quickWarmUp)
              (wuEnd quickWarmUp) Hclock) as [_ [_ [_ Hcorrected]]].
  split; [exact Hpos|]. split; [apply Hraw; reflexivity|].
  apply Hcorrected. vm_compute. discriminate.
Defined.

(** C4 at a concrete run: the server's latency is 200 ms and the warm-up
    takes 100 ms.  The download falls back to the raw span, 0.1 s.  The
    upload has no such fallback: it divides by the latency-corrected span,
    -0.1 s, takes -160 Mbps for the warm-up speed, skips the main phase and
    stores -160 as the upload speed. *)
Theorem upload_warm_up_divides_by_negative_span :
  time.Sub (wuEnd quickWarmUp) (time.Add (wuStart quickWarmUp) (Latency laggy))
  = (- (100 * time.Millisecond))%Z
  /\ dlTimeSpent (Latency laggy) (wuStart quickWarmUp) (wuEnd quickWarmUp) = 0.1%float
  /\ ulTimeSpent (Latency laggy) (wuStart quickWarmUp) (wuEnd quickWarmUp) = (-0.1)%float
  /\ (ulTimeSpent (Latency laggy) (wuStart quickWarmUp) (wuEnd quickWarmUp) <? 0)%float = true
  /\ ulWuSpeed laggy (wuStart quickWarmUp) (wuEnd quickWarmUp) = (-160)%float
  /\ uploadTestContext laggy quickWarmUp false (10 * time.Second) warmUpOK halfMiB
     = Some (set_ULSpeed laggy (-160), None)
  /\ UploadTest laggy halfMiBClient quickWarmUp false (10 * time.Second)
     = Some (set_ULSpeed laggy (-160), None).
Proof.
  do 6 (split; [vm_compute; reflexivity|]).
  reflexivity.
Qed.

(** ** The upload payload *)

Lemma wrap64_in_range (z : Z) :
  (minInt64 <= z <= maxInt64)%Z -> wrap64 z = z.
Proof.
  unfold wrap64, minInt64, maxInt64. intros H.
  rewrite Z.mod_small; lia.
Qed.

Lemma append_length (a b : string) :
  String.length (a ++ b) = (String.length a + String.length b)%nat.
Proof.
  induction a as [|c a IH]; simpl; [reflexivity|].
  rewrite IH. reflexivity.
Qed.

Lemma repeat_string_length (s : string) (n : nat) :
  String.length (repeat_string s n) = (n * String.length s)%nat.
Proof.
  induction n as [|n IH]; simpl; [reflexivity|].
  rewrite append_length, IH. reflexivity.
Qed.

(** Where [strings.Repeat] does not panic, the form value is the block
    written [sizeKB*100-51] times. *)
Lemma ulContent_in_range (sizeKB : Z) :
  (1 <= sizeKB)%Z -> (sizeKB * 1000 - 510 <= maxInt64)%Z ->
  ulContent sizeKB
  = Some (repeat_string "0123456789" (Z.to_nat (sizeKB * 100 - 51))).
Proof.
  intros Hlo Hhi. unfold ulContent, Repeat.
  assert (Hmax : maxInt64 = 9223372036854775807%Z) by reflexivity.
  assert (Hmin : minInt64 = (-9223372036854775808)%Z) by reflexivity.
  rewrite (wrap64_in_range (sizeKB * 100)) by lia.
  rewrite (wrap64_in_range (sizeKB * 100 - 51)) by lia.
  change (Z.of_nat (String.length "0123456789")) with 10%Z.
  destruct (Z.ltb_spec (sizeKB * 100 - 51) 0); [lia|].
  destruct (Z.ltb_spec maxInt64 (10 * (sizeKB * 100 - 51))); [lia|].
  reflexivity.
Qed.

Lemma escapeChar_digit (c : ascii) :
  (48 <=? nat_of_ascii c)%nat && (nat_of_ascii c <=? 57)%nat = true ->
  escapeChar c = String c EmptyString.
Proof.
  intros H. unfold escapeChar, isUnreserved. rewrite H. reflexivity.
Qed.

Lemma QueryEscape_digits (s : string) :
  all_digits s = true -> QueryEscape s = s.
Proof.
  induction s as [|c s IH]; simpl; [reflexivity|].
  intros H. apply andb_prop in H as [Hc Hs].
  rewrite (escapeChar_digit c Hc), (IH Hs). reflexivity.
Qed.

Lemma all_digits_append (a b : string) :
  all_digits (a ++ b) = all_digits a && all_digits b.
Proof.
  induction a as [|c a IH]; simpl; [reflexivity|].
  rewrite IH, andb_assoc. reflexivity.
Qed.

Lemma all_digits_repeat (n : nat) :
  all_digits (repeat_string "0123456789" n) = true.
Proof.
  induction n as [|n IH]; [reflexivity|].
  change (repeat_string "0123456789" (S n))
    with ("0123456789" ++ repeat_string "0123456789" n).
  rewrite all_digits_append, IH. reflexivity.
Qed.

(** C5, as the code has it: for every [sizeKB >= 1] (small enough for
    [strings.Repeat] not to overflow), the form value of an upload is the
    10-character block "0123456789" written [sizeKB*100 - 51] times; it
    has [sizeKB*1000 - 510] characters, and the encoded body is
    ["content="] followed by the value unchanged. *)
Theorem upload_payload_length (sizeKB : Z) :
  (1 <= sizeKB)%Z -> (sizeKB * 1000 - 510 <= maxInt64)%Z ->
  exists v : string,
    ulContent sizeKB = Some v
    /\ v = repeat_string "0123456789" (Z.to_nat (sizeKB * 100 - 51))
    /\ Z.of_nat (String.length v) = (sizeKB * 1000 - 510)%Z
    /\ Encode1 "content" v = "content=" ++ v.
Proof.
  intros Hlo Hhi.
  exists (repeat_string "0123456789" (Z.to_nat (sizeKB * 100 - 51))).
  split; [apply ulContent_in_range; assumption|].
  split; [reflexivity|].
  split.
  - rewrite repeat_string_length.
    change (String.length "0123456789") with 10%nat. lia.
  - unfold Encode1.
    rewrite (QueryEscape_digits (repeat_string _ _)) by apply all_digits_repeat.
    reflexivity.
Qed.

Lemma upload_payload_length_witness :
  exists v : string,
    ulContent 1500 = Some v
    /\ v = repeat_string "0123456789" (Z.to_nat (1500 * 100 - 51))
    /\ Z.of_nat (String.length v) = (1500 * 1000 - 510)%Z
    /\ Encode1 "content" v = "content=" ++ v.
Proof.
  apply (upload_payload_length 1500); unfold maxInt64; lia.
Defined.

(** C5, as stated, fails: for [sizeKB = 1] the block is written 49 times
    and the value has 490 characters, not 1000. *)
Lemma upload_payload_of_1kB_has_490_characters :
  ulContent 1 = Some (repeat_string "0123456789" 49)
  /\ (exists v, ulContent 1 = Some v /\ String.length v = 490%nat)
  /\ ~ (exists v, ulContent 1 = Some v /\ Z.of_nat (String.length v) = (1 * 1000)%Z).
Proof.
  split; [reflexivity|].
  split; [eexists; split; reflexivity|].
  intros [v [Hv Hlen]].
  vm_compute in Hv. injection Hv as <-.
  vm_compute in Hlen. discriminate.
Qed.

(** ** The latency prober *)

Lemma smaller_is_min (t l : Z) : (if (t <? l)%Z then t else l) = Z.min l t.
Proof. destruct (Z.ltb_spec t l); lia. Qed.

(** A ping test that succeeds has made its three round trips, and records
    half the smallest of the initial bound of 10 s and the three spans. *)
Lemma PingTestContext_success (s s' : Server) (doer : Client)
  (clock : nat -> time.Time * time.Time) :
  PingTestContext s doer clock = (s', None) ->
  s' = set_Latency s
         (Z.quot (Z.min (Z.min (Z.min (10 * time.Second) (span clock 0)) (span clock 1))
                    (span clock 2)) 2).
Proof.
  unfold PingTestContext, pingLoop, span, time.Nanoseconds.
  destruct (NewRequest doer "GET" (getPingURL (URL s) (Type_ s))); [discriminate|].
  destruct (answer (Do doer "GET" _ "" 0%nat)); [discriminate|].
  destruct (answer (Do doer "GET" _ "" 1%nat)); [discriminate|].
  destruct (answer (Do doer "GET" _ "" 2%nat)); [discriminate|].
  rewrite !smaller_is_min.
  replace (time.Second * 10)%Z with (10 * time.Second)%Z by reflexivity.
  intros H. inversion H. reflexivity.
Qed.

(** C8, as the code has it: after a successful ping test with spans
    [t1], [t2], [t3], the recorded latency is half (in whole nanoseconds)
    the smallest of 10 s, [t1], [t2] and [t3]; it is [min(t1,t2,t3)/2]
    whenever one of the spans is below 10 s; and it is not negative when
    the three spans are positive. *)
Theorem ping_latency_is_half_capped_minimum
  (s s' : Server) (doer : Client) (clock : nat -> time.Time * time.Time) :
  PingTestContext s doer clock = (s', None) ->
  let t1 := span clock 0 in
  let t2 := span clock 1 in
  let t3 := span clock 2 in
  Latency s' = Z.quot (Z.min (10 * time.Second) (Z.min t1 (Z.min t2 t3))) 2
  /\ ((Z.min t1 (Z.min t2 t3) < 10 * time.Second)%Z ->
      Latency s' = Z.quot (Z.min t1 (Z.min t2 t3)) 2)
  /\ ((0 < t1)%Z -> (0 < t2)%Z -> (0 < t3)%Z -> (0 <= Latency s')%Z).
Proof.
  intros H t1 t2 t3. apply PingTestContext_success in H. subst s'.
  fold t1 t2 t3. cbn [Latency set_Latency].
  assert (Hsec : time.Second = 1000000000%Z) by reflexivity.
  split; [f_equal; lia|].
  split.
  - intros Hlt. f_equal. lia.
  - intros H1 H2 H3. apply Z.quot_pos; lia.
Qed.

Lemma ping_latency_is_half_capped_minimum_witness :
  Latency (fst (PingTestContext classic echoClient
                  (fun i => (0, 30 * time.Millisecond + Z.of_nat i)%Z)))
  = (15 * time.Millisecond)%Z.
Proof.
  pose (clock := fun i : nat => (0, 30 * time.Millisecond + Z.of_nat i)%Z).
  pose (s' := set_Latency classic (15 * time.Millisecond)).
  assert (Hrun : PingTestContext classic echoClient clock = (s', None)) by reflexivity.
  destruct (ping_latency_is_half_capped_minimum classic s' echoClient clock Hrun)
    as [_ [Hmin _]].
  change (PingTestContext classic echoClient
            (fun i => (0, 30 * time.Millisecond + Z.of_nat i)%Z))
    with (PingTestContext classic echoClient clock).
  rewrite Hrun. simpl fst. rewrite Hmin; [reflexivity|].
  vm_compute. reflexivity.
Defined.

(** C8, as stated, fails: three round trips of 12 s each succeed, and the
    latency recorded is 5 s, not [min(t1,t2,t3)/2 = 6 s]. *)
Lemma ping_of_12_seconds_records_5 :
  let clock := fun _ : nat => (0, 12 * time.Second)%Z in
  span clock 0 = (12 * time.Second)%Z
  /\ span clock 1 = (12 * time.Second)%Z
  /\ span clock 2 = (12 * time.Second)%Z
  /\ PingTestContext classic echoClient clock
     = (set_Latency classic (5 * time.Second), None)
  /\ Latency (fst (PingTestContext classic echoClient clock))
     <> Z.quot (Z.min (span clock 0) (Z.min (span clock 1) (span clock 2))) 2.
Proof.
  intros clock. repeat split; try reflexivity.
  vm_compute. discriminate.
Qed.

(** C10: the latency recorded by a successful ping test is at most 5 s,
    and it is exactly 5 s when each of the three round trips takes 10 s or
    longer. *)
Theorem ping_latency_at_most_5_seconds
  (s s' : Server) (doer : Client) (clock : nat -> time.Time * time.Time) :
  PingTestContext s doer clock = (s', None) ->
  (Latency s' <= 5 * time.Second)%Z
  /\ ((10 * time.Second <= span clock 0)%Z ->
      (10 * time.Second <= span clock 1)%Z ->
      (10 * time.Second <= span clock 2)%Z ->
      Latency s' = (5 * time.Second)%Z).
Proof.
  intros H. apply PingTestContext_success in H. subst s'. cbn [Latency set_Latency].
  assert (Hsec : time.Second = 1000000000%Z) by reflexivity.
  split.
  - apply Z.quot_le_upper_bound; lia.
  - intros H0 H1 H2.
    replace (Z.min (Z.min (Z.min (10 * time.Second) (span clock 0)) (span clock 1))
               (span clock 2)) with (10 * time.Second)%Z by lia.
    rewrite Hsec. reflexivity.
Qed.

Lemma ping_latency_at_most_5_seconds_witness :
  let clock := fun _ : nat => (0, 12 * time.Second)%Z in
  (Latency (fst (PingTestContext classic echoClient clock)) <= 5 * time.Second)%Z
  /\ Latency (fst (PingTestContext classic echoClient clock)) = (5 * time.Second)%Z.
Proof.
  intros clock.
  assert (Hrun : PingTestContext classic echoClient clock
                 = (set_Latency classic (5 * time.Second), None)) by reflexivity.
  destruct (ping_latency_at_most_5_seconds classic _ echoClient clock Hrun)
    as [Hle Heq].
  rewrite Hrun. simpl fst.
  split; [exact Hle|].
  apply Heq; vm_compute; discriminate.
Defined.

(** ** URLs *)

Lemma prefix_append (a b : string) : prefix a (a ++ b) = true.
Proof.
  induction a as [|c a IH]; simpl; [destruct b; reflexivity|].
  destruct (ascii_dec c c) as [_|n]; [exact IH|contradiction].
Qed.

Lemma append_assoc (a b c : string) : (a ++ b) ++ c = a ++ (b ++ c).
Proof.
  induction a as [|x a IH]; simpl; [reflexivity|].
  rewrite IH. reflexivity.
Qed.

Lemma append_empty_r (a : string) : a ++ EmptyString = a.
Proof.
  induction a as [|x a IH]; simpl; [reflexivity|].
  rewrite IH. reflexivity.
Qed.

(** The first piece of a split is what precedes the first separator. *)
Lemma Split_aux_first (sep base rest acc : string) :
  sep <> EmptyString ->
  first_match_after sep base (sep ++ rest) = true ->
  hd EmptyString (Split_aux sep (base ++ sep ++ rest) 0 acc) = acc ++ base.
Proof.
  intros Hsep. revert acc.
  induction base as [|c q IH]; intros acc Hfirst.
  - simpl append at 1. destruct sep as [|c sep']; [contradiction|].
    change ((String c sep') ++ rest) with (String c (sep' ++ rest)).
    cbn [Split_aux].
    change (String c (sep' ++ rest)) with ((String c sep') ++ rest).
    rewrite prefix_append. simpl. symmetry. apply append_empty_r.
  - cbn [first_match_after] in Hfirst. apply andb_prop in Hfirst as [Hno Hrest].
    apply negb_true_iff in Hno.
    change ((String c q) ++ sep ++ rest) with (String c (q ++ sep ++ rest)).
    cbn [Split_aux].
    change (String c (q ++ sep ++ rest)) with ((String c q) ++ sep ++ rest).
    rewrite Hno. rewrite (IH _ Hrest). rewrite append_assoc. reflexivity.
Qed.

(** X5: for a classic server whose URL is [base], then the first
    "/upload.php", then anything, the download URL is [base] followed by
    "/random<suffix>x<suffix>.jpg" and the ping URL is [base] followed by
    "/latency.txt"; for a lightweight server the download URL appends
    "/garbage?cors=true&ckSize=<suffix>" to the whole URL. *)
Theorem classic_urls_replace_upload_suffix (base rest url : string) (suffix : Z) :
  first_match_after "/upload.php" base ("/upload.php" ++ rest) = true ->
  getDownloadURL (base ++ "/upload.php" ++ rest) SpeedtestServer suffix
  = base ++ "/random" ++ Itoa suffix ++ "x" ++ Itoa suffix ++ ".jpg"
  /\ getPingURL (base ++ "/upload.php" ++ rest) SpeedtestServer
     = base ++ "/latency.txt"
  /\ getDownloadURL url LibrespeedServer suffix
     = url ++ "/garbage?cors=true&ckSize=" ++ Itoa suffix.
Proof.
  intros H. unfold getDownloadURL, getPingURL, Split.
  simpl ServerType_eqb. cbv iota.
  rewrite Split_aux_first; [|discriminate|exact H].
  repeat split; reflexivity.
Qed.

Lemma classic_urls_replace_upload_suffix_witness :
  getDownloadURL "http://speedtest.example.net/speedtest/upload.php" SpeedtestServer 2500
  = "http://speedtest.example.net/speedtest/random2500x2500.jpg"
  /\ getPingURL "http://speedtest.example.net/speedtest/upload.php" SpeedtestServer
     = "http://speedtest.example.net/speedtest/latency.txt".
Proof.
  destruct (classic_urls_replace_upload_suffix "http://speedtest.example.net/speedtest"
              "" "" 2500 eq_refl) as [Hd [Hp _]].
  split; [exact Hd|exact Hp].
Defined.

(** C9: the classic download URL of base "http://x/upload.php" and suffix
    750 is "http://x/random750x750.jpg"; the lightweight download URL of
    base "http://y" and size 5 is "http://y/garbage?cors=true&ckSize=5". *)
Theorem download_url_examples :
  getDownloadURL "http://x/upload.php" SpeedtestServer 750
  = "http://x/random750x750.jpg"
  /\ getDownloadURL "http://y" LibrespeedServer 5
     = "http://y/garbage?cors=true&ckSize=5".
Proof. by_evaluation. Qed.

(* ================================================================== *)
(** * Further properties of the engine *)

(** ** What a test call leaves alone *)

Lemma PingTestContext_stores (s s' : Server) (doer : Client)
  (clock : nat -> time.Time * time.Time) (e : option error) :
  PingTestContext s doer clock = (s', e) -> s' = set_Latency s (Latency s').
Proof.
  unfold PingTestContext. destruct s as [u t l d v].
  destruct (pingLoop _ _ _ _ _ _); intros H; inversion H; reflexivity.
Qed.

Lemma downloadTestContext_stores (s s' : Server) (o : Observed) (savingMode : bool)
  (duration : time.Duration) (W : downloadWarmUpFunc) (R : downloadFunc)
  (e : option error) :
  downloadTestContext s o savingMode duration W R = Some (s', e) ->
  s' = set_DLSpeed s (DLSpeed s').
Proof.
  unfold downloadTestContext. destruct s as [u t l d v].
  destruct (warmUp _ _) as [[err|]|]; simpl; try discriminate.
  - intros H; inversion H; reflexivity.
  - destruct (skip _); [intros H; inversion H; reflexivity|].
    destruct (mainPhase _ _ _); simpl; [|discriminate].
    intros H; inversion H; reflexivity.
Qed.

Lemma uploadTestContext_stores (s s' : Server) (o : Observed) (savingMode : bool)
  (duration : time.Duration) (W : uploadWarmUpFunc) (R : uploadFunc)
  (e : option error) :
  uploadTestContext s o savingMode duration W R = Some (s', e) ->
  s' = set_ULSpeed s (ULSpeed s').
Proof.
  unfold uploadTestContext. destruct s as [u t l d v].
  destruct (warmUp _ _) as [[err|]|]; simpl; try discriminate.
  - intros H; inversion H; reflexivity.
  - destruct (skip _); [intros H; inversion H; reflexivity|].
    destruct (mainPhase _ _ _); simpl; [|discriminate].
    intros H; inversion H; reflexivity.
Qed.

(** X6: whatever it returns, a test call touches one field of the
    descriptor only: the ping test [Latency], the download test [DLSpeed],
    the upload test [ULSpeed]; the URL, the type and the other two results
    are those it was given. *)
Theorem test_call_touches_its_field_only
  (s s' : Server) (doer : Client) (clock : nat -> time.Time * time.Time)
  (o : Observed) (savingMode : bool) (duration : time.Duration) (e : option error) :
  (PingTest s doer clock = (s', e) -> same_but_Latency s s')
  /\ (DownloadTest s doer o savingMode duration = Some (s', e) -> same_but_DLSpeed s s')
  /\ (UploadTest s doer o savingMode duration = Some (s', e) -> same_but_ULSpeed s s').
Proof.
  split; [|split]; intros H.
  - apply PingTestContext_stores in H. rewrite H. repeat split.
  - apply downloadTestContext_stores in H. rewrite H. repeat split.
  - apply uploadTestContext_stores in H. rewrite H. repeat split.
Qed.

Lemma test_call_touches_its_field_only_witness :
  same_but_DLSpeed measured (set_DLSpeed measured 4.16)
  /\ same_but_ULSpeed measured (set_ULSpeed measured 4.16).
Proof.
  destruct (test_call_touches_its_field_only measured (set_DLSpeed measured 4.16)
              halfMiBClient (fun _ => (0, 1)%Z) threeTransfers true time.Second None)
    as [_ [Hd _]].
  destruct (test_call_touches_its_field_only measured (set_ULSpeed measured 4.16)
              halfMiBClient (fun _ => (0, 1)%Z) threeTransfers true time.Second None)
    as [_ [_ Hu]].
  split; [apply Hd|apply Hu]; reflexivity.
Defined.

(** ** How test calls compose *)

(** The download test reads the URL, the type and the latency only: an
    upload speed stored before it passes through unchanged. *)
Lemma downloadTestContext_after_ULSpeed (s : Server) (v : float) (o : Observed)
  (savingMode : bool) (duration : time.Duration) (W : downloadWarmUpFunc)
  (R : downloadFunc) :
  downloadTestContext (set_ULSpeed s v) o savingMode duration W R
  = match downloadTestContext s o savingMode duration W R with
    | Some (s', e) => Some (set_ULSpeed s' v, e)
    | None => None
    end.
Proof.
  unfold downloadTestContext, dlWuSpeed. cbn [set_ULSpeed Type_ URL Latency].
  destruct (warmUp _ _) as [[err|]|]; simpl; try reflexivity.
  destruct (skip _); [reflexivity|].
  destruct (mainPhase _ _ _); reflexivity.
Qed.

Lemma uploadTestContext_after_DLSpeed (s : Server) (v : float) (o : Observed)
  (savingMode : bool) (duration : time.Duration) (W : uploadWarmUpFunc)
  (R : uploadFunc) :
  uploadTestContext (set_DLSpeed s v) o savingMode duration W R
  = match uploadTestContext s o savingMode duration W R with
    | Some (s', e) => Some (set_DLSpeed s' v, e)
    | None => None
    end.
Proof.
  unfold uploadTestContext, ulWuSpeed. cbn [set_DLSpeed Type_ URL Latency].
  destruct (warmUp _ _) as [[err|]|]; simpl; try reflexivity.
  destruct (skip _); [reflexivity|].
  destruct (mainPhase _ _ _); reflexivity.
Qed.

Lemma set_DLSpeed_set_ULSpeed (s : Server) (d u : float) :
  set_ULSpeed (set_DLSpeed s d) u = set_DLSpeed (set_ULSpeed s u) d.
Proof. reflexivity. Qed.

(** X7: the download test and the upload test commute.  With the same
    client and the same observations for each, a download test followed by
    an upload test, and the upload test followed by the download test, both
    return, return the same errors and leave the same descriptor. *)
Theorem download_and_upload_tests_commute
  (s s1 s12 : Server) (doer : Client) (od ou : Observed)
  (md mu : bool) (dd du : time.Duration) (ed eu : option error) :
  DownloadTest s doer od md dd = Some (s1, ed) ->
  UploadTest s1 doer ou mu du = Some (s12, eu) ->
  exists s2,
    UploadTest s doer ou mu du = Some (s2, eu)
    /\ DownloadTest s2 doer od md dd = Some (s12, ed).
Proof.
  unfold DownloadTest, UploadTest, DownloadTestContext, UploadTestContext.
  intros Hd Hu.
  pose proof (downloadTestContext_stores _ _ _ _ _ _ _ _ Hd) as Hs1.
  rewrite Hs1 in Hu. rewrite uploadTestContext_after_DLSpeed in Hu.
  destruct (uploadTestContext s ou mu du _ _) as [[s2 e2]|] eqn:Hu2; [|discriminate].
  inversion Hu; subst e2.
  exists s2. split; [reflexivity|].
  pose proof (uploadTestContext_stores _ _ _ _ _ _ _ _ Hu2) as Hs2.
  rewrite Hs2 at 1. rewrite downloadTestContext_after_ULSpeed, Hd.
  rewrite Hs1 at 1. rewrite Hs2 at 2. reflexivity.
Qed.

Lemma download_and_upload_tests_commute_witness :
  exists s2,
    UploadTest measured halfMiBClient threeTransfers true time.Second = Some (s2, None)
    /\ DownloadTest s2 halfMiBClient threeTransfers false time.Second
       = Some (set_ULSpeed (set_DLSpeed measured 4.16) 4.16, None).
Proof.
  apply (download_and_upload_tests_commute measured (set_DLSpeed measured 4.16)
           (set_ULSpeed (set_DLSpeed measured 4.16) 4.16) halfMiBClient
           threeTransfers threeTransfers false true time.Second time.Second None None);
    reflexivity.
Defined.

(** X8: running a test again on the descriptor it returned, with the same
    client and observations, returns the same error and the same
    descriptor: a result is overwritten by itself, and no test reads its
    own result field. *)
Theorem test_call_rerun_is_idempotent
  (s s' : Server) (doer : Client) (clock : nat -> time.Time * time.Time)
  (o : Observed) (savingMode : bool) (duration : time.Duration) (e : option error) :
  (PingTest s doer clock = (s', e) -> PingTest s' doer clock = (s', e))
  /\ (DownloadTest s doer o savingMode duration = Some (s', e) ->
      DownloadTest s' doer o savingMode duration = Some (s', e))
  /\ (UploadTest s doer o savingMode duration = Some (s', e) ->
      UploadTest s' doer o savingMode duration = Some (s', e)).
Proof.
  destruct s as [u t l d v].
  split; [|split].
  - unfold PingTest, PingTestContext. cbn [URL Type_].
    destruct (pingLoop _ _ _ _ _ _) as [err|l'] eqn:Hloop;
      intros H; inversion H; subst; cbn [set_Latency URL Type_ DLSpeed ULSpeed];
      rewrite Hloop; reflexivity.
  - unfold DownloadTest, DownloadTestContext, downloadTestContext, dlWuSpeed.
    cbn [URL Type_ Latency].
    destruct (warmUp _ _) as [[err|]|] eqn:Hwarm; cbn [bind ret]; try discriminate.
    + intros H; inversion H; subst. cbn [URL Type_ Latency].
      rewrite Hwarm. reflexivity.
    + destruct (skip _) eqn:Hskip.
      * intros H; inversion H; subst.
        cbn [set_DLSpeed URL Type_ Latency DLSpeed ULSpeed].
        rewrite Hwarm. cbn [bind ret]. rewrite Hskip. reflexivity.
      * destruct (mainPhase _ _ _) as [v'|] eqn:Hmain; cbn [bind ret]; [|discriminate].
        intros H; inversion H; subst.
        cbn [set_DLSpeed URL Type_ Latency DLSpeed ULSpeed].
        rewrite Hwarm. cbn [bind ret]. rewrite Hskip, Hmain. reflexivity.
  - unfold UploadTest, UploadTestContext, uploadTestContext, ulWuSpeed.
    cbn [URL Type_ Latency].
    destruct (warmUp _ _) as [[err|]|] eqn:Hwarm; cbn [bind ret]; try discriminate.
    + intros H; inversion H; subst. cbn [URL Type_ Latency].
      rewrite Hwarm. reflexivity.
    + destruct (skip _) eqn:Hskip.
      * intros H; inversion H; subst.
        cbn [set_ULSpeed URL Type_ Latency DLSpeed ULSpeed].
        rewrite Hwarm. cbn [bind ret]. rewrite Hskip. reflexivity.
      * destruct (mainPhase _ _ _) as [v'|] eqn:Hmain; cbn [bind ret]; [|discriminate].
        intros H; inversion H; subst.
        cbn [set_ULSpeed URL Type_ Latency DLSpeed ULSpeed].
        rewrite Hwarm. cbn [bind ret]. rewrite Hskip, Hmain. reflexivity.
Qed.

Lemma test_call_rerun_is_idempotent_witness :
  DownloadTest (set_DLSpeed measured 4.16) halfMiBClient threeTransfers true time.Second
  = Some (set_DLSpeed measured 4.16, None).
Proof.
  destruct (test_call_rerun_is_idempotent measured (set_DLSpeed measured 4.16)
              halfMiBClient (fun _ => (0, 1)%Z) threeTransfers true time.Second None)
    as [_ [Hd _]].
  apply Hd. reflexivity.
Defined.

(** ** The bytes a transfer reports *)

Lemma sumZ_app (l l' : list Z) : sumZ (l ++ l') = (sumZ l + sumZ l')%Z.
Proof.
  induction l as [|n l IH]; simpl; [reflexivity|].
  rewrite IH. lia.
Qed.

Lemma sumZ_tee (pieces : list Z) : sumZ (tee true pieces) = sumZ pieces.
Proof.
  unfold tee. induction pieces as [|n pieces IH]; simpl; [reflexivity|].
  destruct (Z.eqb_spec n 0); simpl; lia.
Qed.

Lemma tee_no_empty_piece (prog : bool) (pieces : list Z) : ~ In 0%Z (tee prog pieces).
Proof.
  unfold tee. destruct prog; [|intros []].
  intros H. apply filter_In in H as [_ H]. discriminate.
Qed.

(** X9: a download request with a progress handler reports every byte it
    reads from the response body and never an empty piece, also when the
    body ends in an error, which it returns; it reports nothing when the
    request cannot be built or sent, and nothing without a handler. *)
Theorem download_request_reports_bytes_read
  (doer : Client) (t : ServerType) (url : string) (suffix : Z) (k : nat) :
  let xdlURL := getDownloadURL url t suffix in
  (forall resp,
      NewRequest doer "GET" xdlURL = None ->
      answer (Do doer "GET" xdlURL "" k) = inr resp ->
      sumZ (reported (downloadRequest doer t true url suffix k)) = sumZ (reads resp)
      /\ ~ In 0%Z (reported (downloadRequest doer t true url suffix k))
      /\ result (downloadRequest doer t true url suffix k) = readErr resp)
  /\ (forall err,
         NewRequest doer "GET" xdlURL = Some err
         \/ (NewRequest doer "GET" xdlURL = None
             /\ answer (Do doer "GET" xdlURL "" k) = inl err) ->
         downloadRequest doer t true url suffix k = mkTransfer [] (Some err))
  /\ reported (downloadRequest doer t false url suffix k) = [].
Proof.
  intros xdlURL. unfold downloadRequest. fold xdlURL. split; [|split].
  - intros resp -> ->. cbn [reported result].
    split; [apply sumZ_tee|]. split; [apply tee_no_empty_piece|reflexivity].
  - intros err [->|[-> ->]]; reflexivity.
  - destruct (NewRequest _ _ _); [reflexivity|].
    destruct (answer _); reflexivity.
Qed.

Lemma download_request_reports_bytes_read_witness :
  sumZ (reported (downloadRequest choppyClient SpeedtestServer true
                    "http://x/upload.php" 750 0)) = 1500%Z
  /\ result (downloadRequest choppyClient SpeedtestServer true
               "http://x/upload.php" 750 0) = Some "unexpected EOF"
  /\ downloadRequest resetClient SpeedtestServer true "http://x/upload.php" 750 0
     = mkTransfer [] (Some "connection reset by peer").
Proof.
  destruct (download_request_reports_bytes_read choppyClient SpeedtestServer
              "http://x/upload.php" 750 0) as [Hread _].
  destruct (Hread (mkResponse [1000; 0; 500]%Z (Some "unexpected EOF")) eq_refl eq_refl)
    as [Hsum [_ Herr]].
  destruct (download_request_reports_bytes_read resetClient SpeedtestServer
              "http://x/upload.php" 750 0) as [_ [Hfail _]].
  split; [exact Hsum|]. split; [exact Herr|].
  apply Hfail. right. split; reflexivity.
Defined.

(** The body of an upload: ["content="] and the form value. *)
Lemma upload_body (sizeKB : Z) :
  (1 <= sizeKB)%Z -> (sizeKB * 1000 - 510 <= maxInt64)%Z ->
  let body := "content=" ++ repeat_string "0123456789" (Z.to_nat (sizeKB * 100 - 51)) in
  option_map (Encode1 "content") (ulContent sizeKB) = Some body
  /\ Z.of_nat (String.length body) = (sizeKB * 1000 - 502)%Z.
Proof.
  intros Hlo Hhi body. rewrite ulContent_in_range by assumption.
  split.
  - simpl option_map. unfold Encode1.
    rewrite (QueryEscape_digits (repeat_string _ _)) by apply all_digits_repeat.
    reflexivity.
  - unfold body. rewrite append_length, repeat_string_length.
    change (String.length "content=") with 8%nat.
    change (String.length "0123456789") with 10%nat. lia.
Qed.

(** X10: an upload request of [sizeKB] kB (from 1 kB up to what
    [strings.Repeat] can build) does not panic.  The request it hands to
    the client is a POST to the upload URL whose body is ["content="]
    followed by the block "0123456789" written [sizeKB*100 - 51] times,
    [sizeKB*1000 - 502] bytes in all.  What it reports are the non-empty
    pieces the transport reads from that body, whether the exchange then
    succeeds or fails (a failed upload still counts what was read of its
    body), and it returns the error of [Do], or else the error that ended
    the reading of the response. *)
Theorem upload_request_reports_bytes_sent
  (doer : Client) (t : ServerType) (url : string) (sizeKB : Z) (k : nat) :
  (1 <= sizeKB)%Z -> (sizeKB * 1000 - 502 <= maxInt64)%Z ->
  NewRequest doer "POST" (getUploadURL url t) = None ->
  let body := "content=" ++ repeat_string "0123456789" (Z.to_nat (sizeKB * 100 - 51)) in
  let x := Do doer "POST" (getUploadURL url t) body k in
  Z.of_nat (String.length body) = (sizeKB * 1000 - 502)%Z
  /\ exists tr,
       uploadRequest doer t true url sizeKB k = Some tr
       /\ sumZ (reported tr) = sumZ (sent x)
       /\ ~ In 0%Z (reported tr)
       /\ (forall n, n <> 0%Z -> In n (sent x) -> In n (reported tr))
       /\ result tr = match answer x with
                      | inl err => Some err
                      | inr resp => readErr resp
                      end.
Proof.
  intros Hlo Hhi Hnew body x.
  destruct (upload_body sizeKB Hlo ltac:(lia)) as [Hbody Hlen].
  fold body in Hbody, Hlen.
  split; [exact Hlen|].
  unfold uploadRequest. rewrite Hnew.
  destruct (ulContent sizeKB) as [content|]; [|discriminate].
  assert (Hb : Encode1 "content" content = body)
    by (cbn [option_map] in Hbody; congruence).
  rewrite Hb. fold x.
  assert (Hkept : forall n, n <> 0%Z -> In n (sent x) -> In n (tee true (sent x))).
  { intros n Hn Hin. unfold tee. apply filter_In. split; [exact Hin|].
    destruct (Z.eqb_spec n 0); [contradiction|reflexivity]. }
  destruct (answer x) as [err|resp]; eexists; (split; [reflexivity|]);
    cbn [reported result]; (split; [apply sumZ_tee|]);
    (split; [apply tee_no_empty_piece|]); (split; [exact Hkept|reflexivity]).
Qed.

Lemma upload_request_reports_bytes_sent_witness :
  exists tr,
    uploadRequest resetClient SpeedtestServer true "http://x/upload.php" 100 0 = Some tr
    /\ sumZ (reported tr) = 4096%Z
    /\ result tr = Some "connection reset by peer".
Proof.
  destruct (upload_request_reports_bytes_sent resetClient SpeedtestServer
              "http://x/upload.php" 100 0)
    as [_ [tr [Hrun [Hsum [_ [_ Hresult]]]]]];
    [lia|unfold maxInt64; lia|reflexivity|].
  exists tr. split; [exact Hrun|]. split; [exact Hsum|exact Hresult].
Defined.

(** ** The counter without wrap-around *)

Lemma fold_byteTracker_sum (updates : list Z) (total : Z) :
  Forall (fun n => 0 <= n)%Z updates ->
  (0 <= total)%Z -> (total + sumZ updates <= maxInt64)%Z ->
  fold_left byteTracker updates total = (total + sumZ updates)%Z.
Proof.
  intros Hpos. revert total.
  induction Hpos as [|n updates Hn Hpos IH]; intros total Htotal Hmax; simpl.
  - lia.
  - assert (Hsum : (0 <= sumZ updates)%Z).
    { clear -Hpos. induction Hpos; simpl; lia. }
    simpl in Hmax.
    assert (Hstep : byteTracker total n = (total + n)%Z).
    { unfold byteTracker, int64_of_uint64.
      rewrite (wrap64_in_range n) by (unfold minInt64, maxInt64 in *; lia).
      apply wrap64_in_range. unfold minInt64, maxInt64 in *. lia. }
    rewrite Hstep. rewrite IH by lia. lia.
Qed.

(** X11: as long as the byte counts are not negative and their sum fits a
    signed 64-bit integer, the aggregate counter is their plain sum: the
    counter neither loses nor invents a byte. *)
Theorem totalBytes_is_the_sum (ts : list Transfer) :
  Forall (fun n => 0 <= n)%Z (List.concat (map reported ts)) ->
  (sumZ (List.concat (map reported ts)) <= maxInt64)%Z ->
  totalBytes ts = sumZ (List.concat (map reported ts)).
Proof.
  intros Hpos Hmax. unfold totalBytes.
  rewrite fold_byteTracker_sum; [reflexivity|exact Hpos|lia|exact Hmax].
Qed.

Lemma totalBytes_is_the_sum_witness :
  totalBytes [mkTransfer [1000; 500]%Z (Some "unexpected EOF"); mkTransfer [4096]%Z None]
  = 5596%Z.
Proof.
  rewrite totalBytes_is_the_sum.
  - reflexivity.
  - repeat constructor; discriminate.
  - vm_compute. discriminate.
Defined.

(** ** Sign bits of binary64 values *)

Lemma binary_round_aux_sign_clear (mx ex : Z) (lx : location) :
  sign_clear (binary_round_aux prec emax false mx ex lx).
Proof.
  unfold binary_round_aux.
  destruct (shr_fexp prec emax mx ex lx) as [mrs' e'].
  destruct (shr_fexp prec emax _ e' loc_Exact) as [mrs'' e''].
  destruct (shr_m mrs''); simpl; auto.
  destruct (_ <=? _)%Z; simpl; auto.
Qed.

Lemma binary_round_sign_clear (m : positive) (e : Z) :
  sign_clear (binary_round prec emax false m e).
Proof.
  unfold binary_round.
  destruct (shl_align m e _) as [mz ez].
  apply binary_round_aux_sign_clear.
Qed.

Lemma binary_normalize_sign_clear (z e : Z) :
  (0 <= z)%Z -> sign_clear (binary_normalize prec emax z e false).
Proof.
  intros Hz. destruct z as [|m|m]; simpl; auto.
  - apply binary_round_sign_clear.
  - lia.
Qed.

Lemma SFldexp_sign_clear (f : spec_float) (e : Z) :
  sign_clear f -> sign_clear (SFldexp prec emax f e).
Proof.
  destruct f as [s|s| |s m x]; simpl; auto.
  intros ->. apply binary_round_sign_clear.
Qed.

Lemma SF2Prim_sign_clear (f : spec_float) :
  sign_clear f -> sign_clear (Prim2SF (SF2Prim f)).
Proof.
  destruct f as [[|]|[|]| |[|] m e]; simpl; try discriminate; intros _;
    try exact I; try reflexivity.
  rewrite Z_ldexp_spec. apply SFldexp_sign_clear.
  rewrite of_uint63_spec. apply binary_normalize_sign_clear.
  apply Uint63.to_Z_bounded.
Qed.

Lemma float64_sign_clear (z : Z) :
  (0 <= z)%Z -> sign_clear (Prim2SF (float64 z)).
Proof.
  intros Hz. apply SF2Prim_sign_clear, binary_normalize_sign_clear, Hz.
Qed.

Lemma SFadd_sign_clear (x y : spec_float) :
  sign_clear x -> sign_clear y -> sign_clear (SF64add x y).
Proof.
  destruct x as [sx|sx| |sx mx ex], y as [sy|sy| |sy my ey]; simpl;
    try (intros; subst; simpl; auto; fail).
  intros -> ->. simpl. apply binary_round_sign_clear.
Qed.

Lemma SFmul_sign_clear (x y : spec_float) :
  sign_clear x -> sign_clear y -> sign_clear (SF64mul x y).
Proof.
  destruct x as [sx|sx| |sx mx ex], y as [sy|sy| |sy my ey]; simpl;
    try (intros; subst; simpl; auto; fail).
  intros -> ->. apply binary_round_aux_sign_clear.
Qed.

Lemma SFdiv_sign_clear (x y : spec_float) :
  sign_clear x -> sign_clear y -> sign_clear (SF64div x y).
Proof.
  destruct x as [sx|sx| |sx mx ex], y as [sy|sy| |sy my ey]; simpl;
    try (intros; subst; simpl; auto; fail).
  intros -> ->. unfold SF64div, SFdiv.
  destruct (SFdiv_core_binary _ _ _ _ _ _) as [[mz ez] lz].
  apply binary_round_aux_sign_clear.
Qed.

Lemma sign_clear_not_below_zero (x : float) :
  sign_clear (Prim2SF x) -> (x <? 0)%float = false.
Proof.
  rewrite FloatAxioms.ltb_spec. change (Prim2SF 0) with (S754_zero false).
  destruct (Prim2SF x) as [s|s| |s m e]; simpl; try reflexivity;
    intros ->; reflexivity.
Qed.

Lemma Seconds_sign_clear (d : time.Duration) :
  (0 <= d)%Z -> sign_clear (Prim2SF (time.Seconds d)).
Proof.
  intros Hd. unfold time.Seconds.
  rewrite add_spec. apply SFadd_sign_clear.
  - apply float64_sign_clear.
    apply Z.quot_pos; [exact Hd|]. unfold time.Second. lia.
  - rewrite div_spec. apply SFdiv_sign_clear; [|reflexivity].
    apply float64_sign_clear.
    apply Z.rem_nonneg; [unfold time.Second; lia|exact Hd].
Qed.

Lemma Sub_not_negative (sTime fTime : time.Time) :
  (sTime <= fTime)%Z -> (0 <= time.Sub fTime sTime)%Z.
Proof.
  intros H.
  unfold time.Sub, time.maxDuration, time.minDuration, maxInt64, minInt64.
  destruct (Z.ltb_spec (2 ^ 63 - 1) (fTime - sTime)); [lia|].
  destruct (Z.ltb_spec (fTime - sTime) (- 2 ^ 63)); lia.
Qed.

(** The speed of a main phase whose counter is not negative, on a clock
    that does not run backwards, has a clear sign bit. *)
Lemma mainSpeed_sign_clear (total : Z) (sTime fTime : time.Time) :
  (0 <= total)%Z -> (sTime <= fTime)%Z ->
  sign_clear (Prim2SF (mainSpeed total sTime fTime)).
Proof.
  intros Htotal Hclock. unfold mainSpeed.
  rewrite div_spec. apply SFdiv_sign_clear.
  - rewrite mul_spec. apply SFmul_sign_clear; [|reflexivity].
    rewrite mul_spec. apply SFmul_sign_clear; [|reflexivity].
    apply float64_sign_clear.
    apply Z.quot_pos; [|lia]. apply Z.quot_pos; lia.
  - apply Seconds_sign_clear, Sub_not_negative, Hclock.
Qed.

(** The warm-up speeds, when the latency of the server does not exceed
    the span of the warm-up. *)
Lemma dlWuSpeed_sign_clear (s : Server) (sTime fTime : time.Time) :
  (sTime + Latency s <= fTime)%Z ->
  sign_clear (Prim2SF (dlWuSpeed s sTime fTime)).
Proof.
  intros H. unfold dlWuSpeed, dlTimeSpent.
  assert (Hspan : sign_clear
                    (Prim2SF (time.Seconds (time.Sub fTime (time.Add sTime (Latency s)))))).
  { apply Seconds_sign_clear, Sub_not_negative. unfold time.Add. exact H. }
  rewrite (sign_clear_not_below_zero _ Hspan).
  rewrite div_spec. apply SFdiv_sign_clear; [|exact Hspan].
  destruct (Type_ s); reflexivity.
Qed.

Lemma ulWuSpeed_sign_clear (s : Server) (sTime fTime : time.Time) :
  (sTime + Latency s <= fTime)%Z ->
  sign_clear (Prim2SF (ulWuSpeed s sTime fTime)).
Proof.
  intros H. unfold ulWuSpeed, ulTimeSpent.
  rewrite div_spec. apply SFdiv_sign_clear; [reflexivity|].
  apply Seconds_sign_clear, Sub_not_negative. unfold time.Add. exact H.
Qed.

(** ** The admission loop, pass by pass *)

(** Up to its first stopping pass the loop launches one transfer per
    pass, numbered from [k] on. *)
Lemma mainLoop_until_stop (eTime : time.Time) (request : nat -> Call Transfer)
  (before : list Admission) (last : Admission) (after : list Admission) (k : nat) :
  Forall (fun a => stops eTime a = false) before ->
  stops eTime last = true ->
  mainLoop eTime request (before ++ last :: after) k
  = collect (map request (seq k (List.length before))).
Proof.
  intros Hbefore Hlast. revert k.
  induction Hbefore as [|a before Ha Hbefore IH]; intros k; simpl.
  - unfold stops in Hlast. rewrite Hlast. reflexivity.
  - unfold stops in Ha. rewrite Ha. rewrite IH. reflexivity.
Qed.

Lemma collect_length {A : Type} (calls : list (Call A)) (results : list A) :
  collect calls = Some results -> List.length results = List.length calls.
Proof.
  revert results. induction calls as [|c calls IH]; intros results; simpl.
  - intros H. inversion H. reflexivity.
  - destruct c as [a|]; simpl; [|discriminate].
    destruct (collect calls) as [rest|]; simpl; [|discriminate].
    intros H. inversion H. simpl. rewrite (IH rest eq_refl). reflexivity.
Qed.

Lemma collect_returns {A : Type} (calls : list (Call A)) :
  Forall (fun c => c <> None) calls -> exists results, collect calls = Some results.
Proof.
  induction 1 as [|c calls Hc _ [rest IH]]; simpl.
  - exists []. reflexivity.
  - destruct c as [a|]; [|contradiction]. rewrite IH. simpl.
    exists (a :: rest). reflexivity.
Qed.

(** X12: the admission loop launches exactly one transfer for each pass
    that comes before the first pass to find the deadline passed or the
    context done, and none from that pass on: what the clock reads
    afterwards plays no part. *)
Theorem mainLoop_launches_until_first_stop
  (eTime : time.Time) (request : nat -> Call Transfer)
  (before : list Admission) (last : Admission) (after : list Admission) :
  Forall (fun a => stops eTime a = false) before ->
  stops eTime last = true ->
  mainLoop eTime request (before ++ last :: after) 0
  = collect (map request (seq 0 (List.length before)))
  /\ (forall ts, mainLoop eTime request (before ++ last :: after) 0 = Some ts ->
                 List.length ts = List.length before)
  /\ (forall after',
         mainLoop eTime request (before ++ last :: after') 0
         = mainLoop eTime request (before ++ last :: after) 0).
Proof.
  intros Hbefore Hlast.
  split; [apply mainLoop_until_stop; assumption|].
  split.
  - intros ts. rewrite mainLoop_until_stop by assumption.
    intros H. apply collect_length in H. rewrite H, length_map, length_seq.
    reflexivity.
  - intros after'. rewrite !mainLoop_until_stop by assumption. reflexivity.
Qed.

Lemma mainLoop_launches_until_first_stop_witness :
  mainLoop (3 * time.Second) (halfMiB SpeedtestServer (URL classic) 2500)
    (passes threeTransfers) 0
  = collect (map (halfMiB SpeedtestServer (URL classic) 2500) (seq 0 3)).
Proof.
  apply (mainLoop_launches_until_first_stop (3 * time.Second)
           (halfMiB SpeedtestServer (URL classic) 2500)
           [mkAdmission (2000 * time.Millisecond) false;
            mkAdmission (2500 * time.Millisecond) false;
            mkAdmission (3000 * time.Millisecond) false]
           (mkAdmission (4000 * time.Millisecond) true) []).
  - repeat constructor.
  - reflexivity.
Defined.

(** ** A main phase that launches nothing *)

Lemma zero_over_sign_clear (x : float) :
  sign_clear (Prim2SF x) -> (0 / x = 0 \/ 0 / x = nan)%float.
Proof.
  intros H.
  assert (Hq : Prim2SF (0 / x) = S754_zero false \/ Prim2SF (0 / x) = S754_nan).
  { rewrite div_spec. change (Prim2SF 0) with (S754_zero false).
    destruct (Prim2SF x) as [sy|sy| |sy my ey]; simpl in *; subst; auto. }
  destruct Hq as [Hq|Hq]; [left|right]; apply Prim2SF_inj; rewrite Hq; reflexivity.
Qed.

Lemma mainSpeed_of_nothing (sTime fTime : time.Time) :
  mainSpeed 0 sTime fTime = (0 / time.Seconds (time.Sub fTime sTime))%float.
Proof. reflexivity. Qed.

(** X13: when the first pass of the main loop already finds the deadline
    passed or the context done (a duration of zero, a cancelled context),
    no transfer is launched, whatever the request function, and the call
    succeeds with the speed of zero bytes: 0 Mbps, or NaN (there is no
    guard on the division) when the elapsed time reads as zero seconds,
    as it does when the two clock readings are equal. *)
Theorem main_phase_without_launch
  (s : Server) (o : Observed) (savingMode : bool) (duration : time.Duration)
  (dlW : downloadWarmUpFunc) (dlR : downloadFunc)
  (ulW : uploadWarmUpFunc) (ulR : uploadFunc)
  (first : Admission) (rest : list Admission) :
  passes o = first :: rest ->
  stops (time.Add (mainStart o) duration) first = true ->
  (mainStart o <= mainEnd o)%Z ->
  let v := mainSpeed 0 (mainStart o) (mainEnd o) in
  (v = 0%float \/ v = nan)
  /\ (mainEnd o = mainStart o -> v = nan)
  /\ (warmUp (dlW (Type_ s) (URL s) (dlWarmUpSuffix (Type_ s))) 10 = Some None ->
      skip (dlBudget savingMode (dlWuSpeed s (wuStart o) (wuEnd o))) = false ->
      downloadTestContext s o savingMode duration dlW dlR = Some (set_DLSpeed s v, None))
  /\ (warmUp (ulW (Type_ s) (URL s) (elem dlSuffixes 4)) 2 = Some None ->
      skip (ulBudget savingMode (ulWuSpeed s (wuStart o) (wuEnd o))) = false ->
      uploadTestContext s o savingMode duration ulW ulR = Some (set_ULSpeed s v, None)).
Proof.
  intros Hpasses Hstop Hclock v.
  split; [|split; [|split]].
  - unfold v. rewrite mainSpeed_of_nothing.
    apply zero_over_sign_clear, Seconds_sign_clear, Sub_not_negative, Hclock.
  - intros Heq. unfold v, mainSpeed. rewrite Heq.
    unfold time.Sub. replace (mainStart o - mainStart o)%Z with 0%Z by lia.
    reflexivity.
  - intros Hwarm Hskip.
    apply (downloadTestContext_main s o savingMode duration dlW dlR Hwarm []);
      [exact Hskip|].
    rewrite Hpasses. simpl. unfold stops in Hstop. rewrite Hstop. reflexivity.
  - intros Hwarm Hskip.
    apply (uploadTestContext_main s o savingMode duration ulW ulR Hwarm []);
      [exact Hskip|].
    rewrite Hpasses. simpl. unfold stops in Hstop. rewrite Hstop. reflexivity.
Qed.

Lemma main_phase_without_launch_witness :
  let o := mkObserved 0 (1500 * time.Millisecond) (2 * time.Second)
             [mkAdmission (2 * time.Second) true] (2 * time.Second) in
  downloadTestContext classic o false 0 warmUpOK halfMiB
  = Some (set_DLSpeed classic nan, None)
  /\ uploadTestContext classic o true 0 warmUpOK halfMiB
     = Some (set_ULSpeed classic nan, None).
Proof.
  intros o.
  destruct (main_phase_without_launch classic o false 0 warmUpOK halfMiB warmUpOK halfMiB
              (mkAdmission (2 * time.Second) true) [] eq_refl eq_refl)
    as [_ [Hnan [Hd _]]]; [vm_compute; discriminate|].
  destruct (main_phase_without_launch classic o true 0 warmUpOK halfMiB warmUpOK halfMiB
              (mkAdmission (2 * time.Second) true) [] eq_refl eq_refl)
    as [_ [_ [_ Hu]]]; [vm_compute; discriminate|].
  rewrite <- (Hnan eq_refl).
  split; [apply Hd|apply Hu]; reflexivity.
Defined.

(** ** Tables and payloads *)

Lemma ulSuffixes_in_range (x : Z) :
  In x (1500%Z :: ulSuffixes) -> (1 <= x <= 4000)%Z.
Proof.
  unfold ulSuffixes. simpl. intros H.
  repeat (destruct H as [<-|H]; [lia|]). contradiction.
Qed.

Lemma ulContent_of_table (x : Z) :
  In x (1500%Z :: ulSuffixes) -> ulContent x <> None.
Proof.
  intros H. apply ulSuffixes_in_range in H.
  rewrite ulContent_in_range; [discriminate|lia|unfold maxInt64; lia].
Qed.




(** ** Speeds are not negative *)

(** X15: when the latency of the server does not exceed the span of the
    warm-up, the clock does not run backwards during the main phase and
    the byte counter has not wrapped below zero, a test call that succeeds
    never stores a negative speed, whether the main phase ran or was
    skipped. *)
Theorem stored_speed_not_negative
  (s sd su : Server) (o : Observed) (savingMode : bool) (duration : time.Duration)
  (dlW : downloadWarmUpFunc) (dlR : downloadFunc)
  (ulW : uploadWarmUpFunc) (ulR : uploadFunc) :
  (wuStart o + Latency s <= wuEnd o)%Z ->
  (mainStart o <= mainEnd o)%Z ->
  ((forall x ts,
       mainLoop (time.Add (mainStart o) duration) (dlR (Type_ s) (URL s) x) (passes o) 0
       = Some ts -> (0 <= totalBytes ts)%Z) ->
   downloadTestContext s o savingMode duration dlW dlR = Some (sd, None) ->
   (DLSpeed sd <? 0)%float = false)
  /\
  ((forall x ts,
       mainLoop (time.Add (mainStart o) duration) (ulR (Type_ s) (URL s) x) (passes o) 0
       = Some ts -> (0 <= totalBytes ts)%Z) ->
   uploadTestContext s o savingMode duration ulW ulR = Some (su, None) ->
   (ULSpeed su <? 0)%float = false).
Proof.
  intros Hlat Hclock. split; intros Hcount.
  - unfold downloadTestContext.
    destruct (warmUp _ _) as [[err|]|]; simpl; try discriminate.
    destruct (skip _).
    + intros H; inversion H. cbn [DLSpeed set_DLSpeed].
      apply sign_clear_not_below_zero, dlWuSpeed_sign_clear, Hlat.
    + unfold mainPhase.
      destruct (mainLoop _ _ _ _) as [ts|] eqn:Hloop; simpl; [|discriminate].
      intros H; inversion H. cbn [DLSpeed set_DLSpeed].
      apply sign_clear_not_below_zero, mainSpeed_sign_clear; [|exact Hclock].
      exact (Hcount _ _ Hloop).
  - unfold uploadTestContext.
    destruct (warmUp _ _) as [[err|]|]; simpl; try discriminate.
    destruct (skip _).
    + intros H; inversion H. cbn [ULSpeed set_ULSpeed].
      apply sign_clear_not_below_zero, ulWuSpeed_sign_clear, Hlat.
    + unfold mainPhase.
      destruct (mainLoop _ _ _ _) as [ts|] eqn:Hloop; simpl; [|discriminate].
      intros H; inversion H. cbn [ULSpeed set_ULSpeed].
      apply sign_clear_not_below_zero, mainSpeed_sign_clear; [|exact Hclock].
      exact (Hcount _ _ Hloop).
Qed.

Lemma stored_speed_not_negative_witness :
  (DLSpeed (set_DLSpeed measured 4.16) <? 0)%float = false
  /\ (ULSpeed (set_ULSpeed measured 4.16) <? 0)%float = false.
Proof.
  assert (Hcount : forall (x : Z) (ts : list Transfer),
             mainLoop (time.Add (mainStart threeTransfers) time.Second)
               (halfMiB (Type_ measured) (URL measured) x) (passes threeTransfers) 0
             = Some ts -> (0 <= totalBytes ts)%Z).
  { intros x ts H. vm_compute in H. inversion H. vm_compute. discriminate. }
  destruct (stored_speed_not_negative measured (set_DLSpeed measured 4.16)
              (set_ULSpeed measured 4.16) threeTransfers true time.Second
              warmUpOK halfMiB warmUpOK halfMiB) as [Hd Hu].
  - vm_compute. discriminate.
  - vm_compute. discriminate.
  - split; [apply Hd|apply Hu]; try exact Hcount; reflexivity.
Defined.

(** ** A ping that fails *)

(** X16: the latency probe gives up at the first failure: when the request
    cannot be built, or when one of the three round trips fails after the
    earlier ones were answered, the ping test returns that error and the
    descriptor as it was, whatever the other round trips would do. *)
Theorem ping_stops_at_first_failure
  (s : Server) (doer : Client) (clock : nat -> time.Time * time.Time)
  (err : error) (i : nat) :
  let xpingURL := getPingURL (URL s) (Type_ s) in
  (NewRequest doer "GET" xpingURL = Some err -> PingTest s doer clock = (s, Some err))
  /\ (NewRequest doer "GET" xpingURL = None ->
      (i < 3)%nat ->
      answer (Do doer "GET" xpingURL "" i) = inl err ->
      (forall j, (j < i)%nat -> exists resp, answer (Do doer "GET" xpingURL "" j) = inr resp) ->
      PingTest s doer clock = (s, Some err)).
Proof.
  intros xpingURL. unfold PingTest, PingTestContext, pingLoop. fold xpingURL.
  split.
  - intros ->. reflexivity.
  - intros -> Hi Hfail Hbefore.
    destruct i as [|[|[|i]]]; [| | |lia].
    + rewrite Hfail. reflexivity.
    + destruct (Hbefore 0%nat ltac:(lia)) as [r0 ->]. rewrite Hfail. reflexivity.
    + destruct (Hbefore 0%nat ltac:(lia)) as [r0 ->].
      destruct (Hbefore 1%nat ltac:(lia)) as [r1 ->]. rewrite Hfail. reflexivity.
Qed.

Lemma ping_stops_at_first_failure_witness :
  let doer := mkClient (fun _ _ => None)
                (fun _ _ _ k => if (k =? 2)%nat
                                then mkExchange [] (inl "timeout")
                                else mkExchange [] (inr (mkResponse [] None))) in
  PingTest measured doer (fun _ => (0, 30 * time.Millisecond)%Z) = (measured, Some "timeout").
Proof.
  intros doer.
  destruct (ping_stops_at_first_failure measured doer
              (fun _ => (0, 30 * time.Millisecond)%Z) "timeout" 2) as [_ H].
  apply H; [reflexivity|lia|reflexivity|].
  intros j Hj. destruct j as [|[|j]]; [eexists; reflexivity|eexists; reflexivity|lia].
Defined.

(** ** A classic URL without the upload suffix *)

Lemma Split_aux_absent (sep s acc : string) :
  first_match_after sep s EmptyString = true ->
  Split_aux sep s 0 acc = [acc ++ s].
Proof.
  revert acc. induction s as [|c q IH]; intros acc Hfirst.
  - simpl. rewrite append_empty_r. reflexivity.
  - cbn [first_match_after] in Hfirst. apply andb_prop in Hfirst as [Hno Hrest].
    apply negb_true_iff in Hno. rewrite append_empty_r in Hno.
    cbn [Split_aux]. rewrite Hno. rewrite (IH _ Hrest).
    rewrite append_assoc. reflexivity.
Qed.

(** X17: for a classic server whose URL does not contain "/upload.php",
    nothing is cut: the download URL and the ping URL append
    "/random<suffix>x<suffix>.jpg" and "/latency.txt" to the whole URL, and
    the upload URL is the URL itself. *)
Theorem classic_urls_without_upload_suffix (url : string) (suffix : Z) :
  first_match_after "/upload.php" url EmptyString = true ->
  getDownloadURL url SpeedtestServer suffix
  = url ++ "/random" ++ Itoa suffix ++ "x" ++ Itoa suffix ++ ".jpg"
  /\ getPingURL url SpeedtestServer = url ++ "/latency.txt"
  /\ getUploadURL url SpeedtestServer = url.
Proof.
  intros H. unfold getDownloadURL, getPingURL, getUploadURL, Split.
  simpl ServerType_eqb. cbv iota.
  rewrite (Split_aux_absent _ _ _ H).
  repeat split; reflexivity.
Qed.

Lemma classic_urls_without_upload_suffix_witness :
  getDownloadURL "http://host:8080/speedtest" SpeedtestServer 350
  = "http://host:8080/speedtest/random350x350.jpg"
  /\ getPingURL "http://host:8080/speedtest" SpeedtestServer
     = "http://host:8080/speedtest/latency.txt".
Proof.
  destruct (classic_urls_without_upload_suffix "http://host:8080/speedtest" 350 eq_refl)
    as [Hd [Hp _]].
  split; [exact Hd|exact Hp].
Defined.

(** ** No result without a full warm-up *)

Lemma collect_Forall2 {A : Type} (calls : list (Call A)) (results : list A) :
  collect calls = Some results -> Forall2 (fun c r => c = Some r) calls results.
Proof.
  revert results. induction calls as [|c calls IH]; intros results; simpl.
  - intros H. inversion H. constructor.
  - destruct c as [a|]; simpl; [|discriminate].
    destruct (collect calls) as [rest|]; simpl; [|discriminate].
    intros H. inversion H. constructor; [reflexivity|]. apply IH. reflexivity.
Qed.

Lemma Wait_nil (results : list (option error)) :
  Wait results = None -> Forall (fun r => r = None) results.
Proof.
  induction results as [|[e|] results IH]; simpl; intros H.
  - constructor.
  - discriminate.
  - constructor; [reflexivity|]. apply IH, H.
Qed.

Lemma warmUp_succeeded (task : nat -> Call (option error)) (n : nat) :
  warmUp task n = Some None -> forall k, (k < n)%nat -> task k = Some None.
Proof.
  unfold warmUp.
  destruct (collect (map task (seq 0 n))) as [results|] eqn:Hc; simpl; [|discriminate].
  intros Hw.
  assert (Hwait : Wait results = None) by (unfold ret in Hw; congruence).
  clear Hw. apply Wait_nil in Hwait.
  apply collect_Forall2 in Hc.
  assert (Hall : Forall (fun c => c = Some None) (map task (seq 0 n))).
  { clear -Hc Hwait. induction Hc as [|c r calls results Hcr _ IH]; constructor.
    - inversion Hwait; subst. reflexivity.
    - apply IH. inversion Hwait; assumption. }
  intros k Hk. rewrite Forall_forall in Hall. apply Hall.
  apply in_map, in_seq. lia.
Qed.

(** X18: a download test or an upload test returns a nil error, and so
    stores a speed, only if every one of its warm-up tasks (ten downloads,
    two uploads) returned without error. *)
Theorem success_needs_every_warm_up_task
  (s s' : Server) (o : Observed) (savingMode : bool) (duration : time.Duration)
  (dlW : downloadWarmUpFunc) (dlR : downloadFunc)
  (ulW : uploadWarmUpFunc) (ulR : uploadFunc) :
  (downloadTestContext s o savingMode duration dlW dlR = Some (s', None) ->
   forall k, (k < 10)%nat ->
             dlW (Type_ s) (URL s) (dlWarmUpSuffix (Type_ s)) k = Some None)
  /\ (uploadTestContext s o savingMode duration ulW ulR = Some (s', None) ->
      forall k, (k < 2)%nat ->
                ulW (Type_ s) (URL s) (elem dlSuffixes 4) k = Some None).
Proof.
  split.
  - unfold downloadTestContext.
    destruct (warmUp _ _) as [[err|]|] eqn:Hwarm; simpl; try discriminate.
    intros _. exact (warmUp_succeeded _ _ Hwarm).
  - unfold uploadTestContext.
    destruct (warmUp _ _) as [[err|]|] eqn:Hwarm; simpl; try discriminate.
    intros _. exact (warmUp_succeeded _ _ Hwarm).
Qed.

Lemma success_needs_every_warm_up_task_witness :
  warmUpOK (Type_ classic) (URL classic) (dlWarmUpSuffix (Type_ classic)) 7 = Some None.
Proof.
  destruct (success_needs_every_warm_up_task classic (set_DLSpeed classic 0.9)
              slowWarmUp false (10 * time.Second) warmUpOK halfMiB warmUpOK halfMiB)
    as [H _].
  apply H; [reflexivity|lia].
Defined.

(** ** A faster warm-up *)

Lemma SFltb_leb_trans (mc : positive) (ec : Z) (x y : spec_float) :
  SFltb (S754_finite false mc ec) x = true ->
  SFleb x y = true ->
  SFltb (S754_finite false mc ec) y = true.
Proof.
  unfold SFltb, SFleb, SFcompare.
  destruct x as [sx|sx| |sx mx ex]; try (destruct sx); try discriminate;
    destruct y as [sy|sy| |sy my ey]; try (destruct sy); try discriminate;
    try reflexivity.
  rewrite !Pos.compare_cont_spec. simpl.
  destruct (Z.compare_spec ec ex), (Z.compare_spec ex ey), (Z.compare_spec ec ey);
    try discriminate; try reflexivity; try lia; subst.
  all: destruct (Pos.compare_spec mc mx), (Pos.compare_spec mx my),
         (Pos.compare_spec mc my);
    try discriminate; try reflexivity; try lia.
Qed.

Lemma above_threshold_mono (c x y : float) (mc : positive) (ec : Z) :
  Prim2SF c = S754_finite false mc ec ->
  (x <=? y)%float = true -> (c <? x)%float = true -> (c <? y)%float = true.
Proof.
  rewrite !FloatAxioms.ltb_spec, leb_spec. intros -> Hle Hlt.
  eapply SFltb_leb_trans; eassumption.
Qed.

Lemma bucketOf_mono (x y : float) :
  (x <=? y)%float = true -> (rank (bucketOf x) <= rank (bucketOf y))%nat.
Proof.
  intros Hle. unfold bucketOf.
  pose proof (above_threshold_mono 50 x y _ _ eq_refl Hle) as H50.
  pose proof (above_threshold_mono 10 x y _ _ eq_refl Hle) as H10.
  pose proof (above_threshold_mono 4 x y _ _ eq_refl Hle) as H4.
  pose proof (above_threshold_mono 2.5 x y _ _ eq_refl Hle) as H25.
  destruct (50 <? x)%float; [rewrite H50 by reflexivity; simpl; lia|].
  destruct (10 <? x)%float.
  { specialize (H10 eq_refl). destruct (50 <? y)%float; [simpl; lia|].
    rewrite H10. simpl; lia. }
  destruct (4 <? x)%float.
  { specialize (H4 eq_refl). destruct (50 <? y)%float; [simpl; lia|].
    destruct (10 <? y)%float; [simpl; lia|]. rewrite H4. simpl; lia. }
  destruct (2.5 <? x)%float.
  { specialize (H25 eq_refl). destruct (50 <? y)%float; [simpl; lia|].
    destruct (10 <? y)%float; [simpl; lia|].
    destruct (4 <? y)%float; [simpl; lia|]. rewrite H25. simpl; lia. }
  simpl. lia.
Qed.

(** X19: with conservative mode off, a warm-up at least as fast never
    gets less: if the slower warm-up runs the main phase, so does the
    faster one, with at least as many streams and at least as large a
    payload index, in both directions. *)
Theorem faster_warm_up_never_gets_less (d : Direction) (x y : float) :
  (x <=? y)%float = true ->
  skip (budgetOf d false x) = false ->
  skip (budgetOf d false y) = false
  /\ (streams (budgetOf d false x) <= streams (budgetOf d false y))%Z
  /\ (weight (budgetOf d false x) <= weight (budgetOf d false y))%nat.
Proof.
  intros Hle. apply bucketOf_mono in Hle. rewrite !budgetOf_table.
  destruct d, (bucketOf x), (bucketOf y); simpl in *;
    intros Hskip; try discriminate; try lia; repeat split; lia.
Qed.

Lemma faster_warm_up_never_gets_less_witness :
  (streams (dlBudget false 5) <= streams (dlBudget false 60))%Z
  /\ (streams (ulBudget false 5) <= streams (ulBudget false 60))%Z.
Proof.
  destruct (faster_warm_up_never_gets_less Download 5 60 eq_refl eq_refl) as [_ [Hd _]].
  destruct (faster_warm_up_never_gets_less Upload 5 60 eq_refl eq_refl) as [_ [Hu _]].
  split; [exact Hd|exact Hu].
Defined.

(** ** A request that cannot be built *)

Lemma warmUp_all_fail (task : nat -> Call (option error)) (n : nat) (err : error) :
  (forall k, task k = Some (Some err)) -> warmUp task (S n) = Some (Some err).
Proof.
  intros Htask. unfold warmUp.
  destruct (collect_returns (map task (seq 0 (S n)))) as [results Hc].
  - apply Forall_forall. intros c Hin.
    apply in_map_iff in Hin as [k [<- _]]. rewrite Htask. discriminate.
  - rewrite Hc. apply collect_Forall2 in Hc. cbn [seq map] in Hc.
    destruct results as [|r rs]; [inversion Hc|].
    assert (Hr : task 0%nat = Some r) by (inversion Hc; assumption).
    rewrite Htask in Hr. injection Hr as <-. reflexivity.
Qed.

(** X20: a request that cannot be built is fatal.  When the client
    refuses the warm-up request of a test (a malformed URL), the test
    returns that error without any exchange: the download test for the
    GET of its warm-up URL, the upload test for the POST to its upload
    URL; the descriptor is returned as it was. *)
Theorem request_build_error_is_fatal
  (s : Server) (doer : Client) (o : Observed) (savingMode : bool)
  (duration : time.Duration) (err : error) :
  (NewRequest doer "GET"
     (getDownloadURL (URL s) (Type_ s) (dlWarmUpSuffix (Type_ s))) = Some err ->
   DownloadTest s doer o savingMode duration = Some (s, Some err))
  /\ (NewRequest doer "POST" (getUploadURL (URL s) (Type_ s)) = Some err ->
      UploadTest s doer o savingMode duration = Some (s, Some err)).
Proof.
  split; intros Hnew.
  - unfold DownloadTest, DownloadTestContext.
    apply downloadTestContext_warm_up_failed.
    apply (warmUp_all_fail _ 9). intros k.
    unfold dlWarmUp. rewrite Hnew. reflexivity.
  - unfold UploadTest, UploadTestContext.
    apply uploadTestContext_warm_up_failed.
    apply (warmUp_all_fail _ 1). intros k.
    unfold ulWarmUp. rewrite Hnew.
    destruct (ulContent (elem dlSuffixes 4)) eqn:Hc; [reflexivity|].
    exfalso. revert Hc. apply ulContent_of_table. simpl. tauto.
Qed.

Lemma request_build_error_is_fatal_witness :
  DownloadTest lightweight deadClient threeTransfers false time.Second
  = Some (lightweight, Some "unsupported protocol scheme")
  /\ UploadTest lightweight deadClient threeTransfers false time.Second
     = Some (lightweight, Some "unsupported protocol scheme").
Proof.
  destruct (request_build_error_is_fatal lightweight deadClient threeTransfers false
              time.Second "unsupported protocol scheme") as [Hd Hu].
  split; [apply Hd|apply Hu]; reflexivity.
Defined.

(** ** The megabytes of a suffix *)

Lemma SFmul_square_sign_clear (x : spec_float) : sign_clear (SF64mul x x).
Proof.
  destruct x as [[|]|[|]| |[|] m e]; simpl; auto;
    apply binary_round_aux_sign_clear.
Qed.

(** X21: the megabytes [suffixToMB] gives are never below zero: for a
    classic server whatever the suffix, even a negative one (the suffix is
    squared), and for a lightweight server, where they are the suffix
    itself, for every suffix that is not negative. *)
Theorem suffixToMB_not_negative (t : ServerType) (suffix : Z) :
  (t = LibrespeedServer -> 0 <= suffix)%Z ->
  (suffixToMB t suffix <? 0)%float = false.
Proof.
  intros H. apply sign_clear_not_below_zero. unfold suffixToMB.
  destruct t; simpl ServerType_eqb; cbv iota.
  - rewrite div_spec. apply SFdiv_sign_clear; [|reflexivity].
    rewrite div_spec. apply SFdiv_sign_clear; [|reflexivity].
    rewrite mul_spec. apply SFmul_sign_clear; [|reflexivity].
    rewrite mul_spec. apply SFmul_square_sign_clear.
  - apply float64_sign_clear, H. reflexivity.
Qed.

Lemma suffixToMB_not_negative_witness :
  (suffixToMB SpeedtestServer (-750) <? 0)%float = false
  /\ (suffixToMB LibrespeedServer 1 <? 0)%float = false.
Proof.
  split.
  - apply (suffixToMB_not_negative SpeedtestServer (-750)). discriminate.
  - apply (suffixToMB_not_negative LibrespeedServer 1). lia.
Defined.
